(** * Resource mutation, vote ledger and click counter

    A shallow embedding of [app/api/routes/resource_modification.py]:
    [update_resource], [change_votes], [update_votes], [update_resource_click]
    and [add_click], over an explicit model of the SQLAlchemy session, the
    committed datastore and the calls made to the search index. *)

From Stdlib Require Import ZArith Lia.
From stdpp Require Import base strings gmap sets list fin_maps.

Local Open Scope Z_scope.
#[local] Set Warnings "-clear-no-such-hyp".

(** ** Python values carried by a JSON document *)

#[warnings="-register-all"]
Inductive value :=
  | VNone
  | VBool (b : bool)
  | VInt (n : Z)
  | VStr (s : string)
  | VList (l : list value).

(** Python truthiness: [if v:]. *)
Definition truthy (v : value) : bool :=
  match v with
  | VNone => false
  | VBool b => b
  | VInt n => negb (n =? 0)
  | VStr s => match s with EmptyString => false | String _ _ => true end
  | VList l => match l with [] => false | _ :: _ => true end
  end.

(** [v is not None]. *)
Definition is_not_None (v : value) : bool :=
  match v with VNone => false | _ => true end.

(** A Python [dict] with string keys. *)
Abbreviation Dict := (gmap string value).

(** [json.get(key)]: the value, or [None] when the key is absent. *)
Definition dict_get (json : Dict) (key : string) : value :=
  default VNone (json !! key).

(** [key in json]. *)
Definition dict_contains (json : Dict) (key : string) : bool :=
  bool_decide (is_Some (json !! key)).

(** ** Entities

    [Language] and [Category] rows are identified by their unique [name];
    a relationship to one of them is stored as that name.  A [Resource] row
    is stored under its primary key [id] in [resource_table], so the record
    carries the remaining columns.  The scalar columns hold whatever value
    the document supplied ([resource.name = json.get('name')]). *)

Record Resource := mkResource {
  name : value;
  url : value;
  free : bool;
  notes : value;
  upvotes : Z;
  downvotes : Z;
  times_clicked : Z;
  languages : list string;
  category : string
}.

(** A ledger row, stored under its composite primary key
    [(voter_apikey, resource_id)]; [voter] is the linked [Key], if any. *)
Record VoteInformation := mkVoteInformation {
  current_direction : option string;
  voter : option string
}.

Record Key := mkKey { apikey : string }.

Record DB := mkDB {
  resource_table : gmap Z Resource;
  language_table : gset string;
  category_table : gset string;
  vote_information_table : gmap (string * Z) VoteInformation;
  key_table : gset string
}.

(** The request context [g] of Flask: the authenticated key, if any. *)
Record G := mkG { auth_key : option Key }.

(** ** State, exceptions and the monad of a request handler

    [session] is the unit of work ([db.session]): the objects as the handler
    sees and mutates them.  [database] is what has been committed.
    [index_calls] lists the patches handed to [index.partial_update_object],
    oldest first.  A request starts on a session that mirrors the datastore,
    [mkState db db calls]; an exception leaves the state as it was when it
    was raised, and nothing reaches [database] but through [commit]. *)

Record State := mkState {
  session : DB;
  database : DB;
  index_calls : list Dict
}.

Inductive exn :=
  | AlgoliaUnreachableHostException
  | AlgoliaException
  | IntegrityError
  | AttributeError
  | OtherException.

Definition M (A : Type) : Type := State → (exn + A) * State.

#[global] Instance M_ret : MRet M := λ A x st, (inr x, st).
#[global] Instance M_bind : MBind M := λ A B f m st,
  match m st with
  | (inr x, st') => f x st'
  | (inl e, st') => (inl e, st')
  end.

Definition raise {A} (e : exn) : M A := λ st, (inl e, st).

(** [try: body  except handled as e: handler e]; an exception that is not
    [handled] propagates. *)
Definition try_except {A} (body : M A) (handled : exn → bool)
    (handler : exn → M A) : M A := λ st,
  match body st with
  | (inr x, st') => (inr x, st')
  | (inl e, st') => if handled e then handler e st' else (inl e, st')
  end.

Definition get_session : M DB := λ st, (inr (session st), st).

Definition modify_session (f : DB → DB) : M unit := λ st,
  (inr tt, mkState (f (session st)) (database st) (index_calls st)).

(** [db.session.commit()].  The tables are keyed by their unique columns, so
    the pending state always satisfies the uniqueness constraints and the
    commit goes through. *)
Definition commit : M unit := λ st,
  (inr tt, mkState (session st) (session st) (index_calls st)).

(** ** Responses *)

Inductive Payload :=
  | NoPayload
  | ResourceData (resource : Resource) (api_key : option string)
  | AlgoliaFailed (resource_name : value).

(** [redirect(location)] and
    [utils.standardize_response(payload=..., status_code=...)], where
    [status_code = None] leaves the helper's default. *)
Inductive Response :=
  | redirect (location : string)
  | standardize_response (payload : Payload) (status_code : option Z).

(** ** Queries and attribute access *)

(** [Resource.query.get(id)]. *)
Definition Resource_query_get (id : Z) : M (option Resource) :=
  db ← get_session; mret (resource_table db !! id).

(** [VoteInformation.query.get({'voter_apikey': k, 'resource_id': id})]. *)
Definition VoteInformation_query_get (api_key : string) (id : Z)
    : M (option VoteInformation) :=
  db ← get_session; mret (vote_information_table db !! (api_key, id)).

(** [Key.query.filter_by(apikey=api_key).first()]. *)
Definition Key_query_first (api_key : string) : M (option string) :=
  db ← get_session;
  mret (if decide (api_key ∈ key_table db) then Some api_key else None).

(** [g.auth_key.apikey]: an attribute of [None] raises. *)
Definition g_auth_key_apikey (g : G) : M string :=
  match auth_key g with
  | Some k => mret (apikey k)
  | None => raise AttributeError
  end.

(** [getattr(resource, attr)] for the integer counters this module reads
    that way; any other name is reported as [AttributeError]. *)
Definition getattr (resource : Resource) (attr : string) : M Z :=
  if decide (attr = "upvotes") then mret (upvotes resource)
  else if decide (attr = "downvotes") then mret (downvotes resource)
  else if decide (attr = "times_clicked") then mret (times_clicked resource)
  else raise AttributeError.

Definition with_counter (attr : string) (n : Z) (r : Resource) : Resource :=
  if decide (attr = "upvotes") then
    mkResource (name r) (url r) (free r) (notes r) n (downvotes r)
      (times_clicked r) (languages r) (category r)
  else if decide (attr = "downvotes") then
    mkResource (name r) (url r) (free r) (notes r) (upvotes r) n
      (times_clicked r) (languages r) (category r)
  else if decide (attr = "times_clicked") then
    mkResource (name r) (url r) (free r) (notes r) (upvotes r) (downvotes r)
      n (languages r) (category r)
  else r.

Definition put_resource_row (id : Z) (r : Resource) (db : DB) : DB :=
  mkDB (<[id := r]> (resource_table db)) (language_table db)
    (category_table db) (vote_information_table db) (key_table db).

Definition put_vote_row (api_key : string) (id : Z) (v : VoteInformation)
    (db : DB) : DB :=
  mkDB (resource_table db) (language_table db) (category_table db)
    (<[(api_key, id) := v]> (vote_information_table db)) (key_table db).

(** [setattr(resource, attr, n)] on the session object stored under [id];
    the updated object is returned for the handler's local variable. *)
Definition setattr (id : Z) (resource : Resource) (attr : string) (n : Z)
    : M Resource :=
  let resource := with_counter attr n resource in
  modify_session (put_resource_row id resource);;
  mret resource.

(** [resource.voters.append(new_vote_info)]: the row enters the session
    under its primary key. *)
Definition voters_append (api_key : string) (id : Z)
    (new_vote_info : VoteInformation) : M unit :=
  modify_session (put_vote_row api_key id new_vote_info).

(** [setattr(vote_info, 'current_direction', d)]. *)
Definition set_current_direction (api_key : string) (id : Z)
    (vote_info : VoteInformation) (d : option string) : M unit :=
  modify_session
    (put_vote_row api_key id (mkVoteInformation d (voter vote_info))).

(** [s[:-1]]. *)
Fixpoint drop_last (s : string) : string :=
  match s with
  | EmptyString => EmptyString
  | String c s' =>
      match s' with
      | EmptyString => EmptyString
      | String _ _ => String c (drop_last s')
      end
  end.

(** ** The vote ledger *)

Definition update_votes (g : G) (id : Z) (vote_direction_attribute : string)
    : M Response :=
  resource ← Resource_query_get id;
  match resource with
  | None => mret (redirect "/404")
  | Some resource =>
      initial_count ← getattr resource vote_direction_attribute;
      let vote_direction := drop_last vote_direction_attribute in
      let opposite_direction_attribute :=
        if decide (vote_direction_attribute = "upvotes")
        then "downvotes" else "upvotes" in
      let opposite_direction := drop_last opposite_direction_attribute in
      opposite_count ← getattr resource opposite_direction_attribute;
      api_key ← g_auth_key_apikey g;
      vote_info ← VoteInformation_query_get api_key id;
      resource ←
        match vote_info with
        | None =>
            voter ← Key_query_first api_key;
            let new_vote_info :=
              mkVoteInformation (Some vote_direction) voter in
            voters_append api_key id new_vote_info;;
            setattr id resource vote_direction_attribute (initial_count + 1)
        | Some vote_info =>
            if decide (current_direction vote_info = Some vote_direction)
            then
              resource ← setattr id resource vote_direction_attribute
                           (initial_count - 1);
              set_current_direction api_key id vote_info None;;
              mret resource
            else
              resource ←
                (if decide (current_direction vote_info
                            = Some opposite_direction)
                 then setattr id resource opposite_direction_attribute
                        (opposite_count - 1)
                 else mret resource);
              resource ← setattr id resource vote_direction_attribute
                           (initial_count + 1);
              set_current_direction api_key id vote_info
                (Some vote_direction);;
              mret resource
        end;
      commit;;
      mret (standardize_response (ResourceData resource (Some api_key)) None)
  end.

Definition change_votes (g : G) (id : Z) (vote_direction : string)
    : M Response :=
  if decide (vote_direction ∈ ["upvote"; "downvote"])
  then update_votes g id (vote_direction +:+ "s")
  else mret (redirect "/404").

(** ** The click counter *)

Definition add_click (g : G) (id : Z) : M Response :=
  resource ← Resource_query_get id;
  let api_key := apikey <$> auth_key g in
  match resource with
  | None => mret (redirect "/404")
  | Some resource =>
      initial_count ← getattr resource "times_clicked";
      resource ← setattr id resource "times_clicked" (initial_count + 1);
      commit;;
      mret (standardize_response (ResourceData resource api_key) None)
  end.

(** The route is registered with [authenticate(allow_no_auth_key=True)]:
    the handler runs with or without a key in [g]. *)
Definition update_resource_click (g : G) (id : Z) : M Response :=
  add_click g id.

(** ** The resource mutation engine *)

(** The resource with one column replaced. *)
Definition with_languages (langs : list string) (r : Resource) : Resource :=
  mkResource (name r) (url r) (free r) (notes r) (upvotes r) (downvotes r)
    (times_clicked r) langs (category r).

Definition with_category (categ : string) (r : Resource) : Resource :=
  mkResource (name r) (url r) (free r) (notes r) (upvotes r) (downvotes r)
    (times_clicked r) (languages r) categ.

Definition with_name (v : value) (r : Resource) : Resource :=
  mkResource v (url r) (free r) (notes r) (upvotes r) (downvotes r)
    (times_clicked r) (languages r) (category r).

Definition with_url (v : value) (r : Resource) : Resource :=
  mkResource (name r) v (free r) (notes r) (upvotes r) (downvotes r)
    (times_clicked r) (languages r) (category r).

Definition with_free (b : bool) (r : Resource) : Resource :=
  mkResource (name r) (url r) b (notes r) (upvotes r) (downvotes r)
    (times_clicked r) (languages r) (category r).

Definition with_notes (v : value) (r : Resource) : Resource :=
  mkResource (name r) (url r) (free r) v (upvotes r) (downvotes r)
    (times_clicked r) (languages r) (category r).

(** Rows that enter the session because a resource now refers to them
    (an unseen name is a new row, a known name is the existing row). *)
Definition add_language_rows (langs : list string) (db : DB) : DB :=
  mkDB (resource_table db) (language_table db ∪ list_to_set langs)
    (category_table db) (vote_information_table db) (key_table db).

Definition add_category_row (categ : string) (db : DB) : DB :=
  mkDB (resource_table db) (language_table db)
    (category_table db ∪ {[categ]}) (vote_information_table db)
    (key_table db).

Definition delete_language_row (language : string) (db : DB) : DB :=
  mkDB (resource_table db) (language_table db ∖ {[language]})
    (category_table db) (vote_information_table db) (key_table db).

Definition delete_category_row (categ : string) (db : DB) : DB :=
  mkDB (resource_table db) (language_table db)
    (category_table db ∖ {[categ]}) (vote_information_table db)
    (key_table db).

(** [resource.languages = langs] and the other attribute assignments of
    [update_resource], on the session object stored under [id]. *)
Definition assign_languages (id : Z) (resource : Resource)
    (langs : list string) : M Resource :=
  let resource := with_languages langs resource in
  modify_session
    (λ db, add_language_rows langs (put_resource_row id resource db));;
  mret resource.

Definition assign_category (id : Z) (resource : Resource) (categ : string)
    : M Resource :=
  let resource := with_category categ resource in
  modify_session
    (λ db, add_category_row categ (put_resource_row id resource db));;
  mret resource.

Definition assign (id : Z) (resource : Resource) : M Resource :=
  modify_session (put_resource_row id resource);;
  mret resource.

(** [db.session.delete(row)]; the callers delete a tag only when no
    resource of the session refers to it. *)
Definition session_delete_language (language : string) : M unit :=
  modify_session (delete_language_row language).

Definition session_delete_category (categ : string) : M unit :=
  modify_session (delete_category_row categ).

(** [Resource.query.all()]: the resources as the session holds them. *)
Definition Resource_query_all : M (list Resource) :=
  db ← get_session; mret ((map_to_list (resource_table db)).*2).

Definition get_unique_resource_categories_as_strings : M (gset string) :=
  resources ← Resource_query_all;
  mret (list_to_set (category <$> resources)).

Definition get_unique_resource_languages_as_strings : M (gset string) :=
  resources ← Resource_query_all;
  mret (list_to_set (concat (languages <$> resources))).

(** [for x in l: body x]. *)
Fixpoint for_each {A} (l : list A) (body : A → M unit) : M unit :=
  match l with
  | [] => mret tt
  | x :: l' => body x;; for_each l' body
  end.

Definition is_algolia_exception (e : exn) : bool :=
  match e with
  | AlgoliaUnreachableHostException | AlgoliaException => true
  | _ => false
  end.

Section UpdateResource.

(** Collaborators of [update_resource] that live outside this module:
    [helpers.get_attributes] (the language names and the category name a
    document resolves to), [helpers.ensure_bool] ([None] when it raises),
    the ['languages'] entry of [Resource.serialize(api_key)], the process
    environment, and the answer of the search index to a patch ([None]
    when the call returns, [Some e] when it raises [e]). *)
Variable get_attributes : Dict → list string * string.
Variable ensure_bool : value → option bool.
Variable serialize_languages : Resource → string → value.
Variable environ : gmap string string.
Variable index_outcome : Dict → option exn.

(** [index.partial_update_object(index_object)]. *)
Definition index_partial_update_object (index_object : Dict) : M unit :=
  λ st,
    let st' := mkState (session st) (database st)
                 (index_calls st ++ [index_object]) in
    match index_outcome index_object with
    | None => (inr tt, st')
    | Some e => (inl e, st')
    end.

Definition call_ensure_bool (v : value) : M bool :=
  match ensure_bool v with
  | Some b => mret b
  | None => raise OtherException
  end.

(** Lines 60-67.  (The [logger.info] of lines 57-59 has no effect on the
    state and is left out.) *)
Definition stage_languages (id : Z) (api_key : string) (json : Dict)
    (langs : list string) (resource : Resource) (index_object : Dict)
    : M (Resource * Dict) :=
  if is_not_None (dict_get json "languages") then
    let old_languages := languages resource in
    resource ← assign_languages id resource langs;
    let index_object :=
      <["languages" := serialize_languages resource api_key]>
        index_object in
    resource_languages ← get_unique_resource_languages_as_strings;
    for_each old_languages (λ language,
      if decide (language ∉ resource_languages)
      then session_delete_language language
      else mret tt);;
    mret (resource, index_object)
  else mret (resource, index_object).

(** Lines 68-74. *)
Definition stage_category (id : Z) (json : Dict) (categ : string)
    (resource : Resource) (index_object : Dict) : M (Resource * Dict) :=
  if truthy (dict_get json "category") then
    let old_category := category resource in
    resource ← assign_category id resource categ;
    let index_object := <["category" := VStr categ]> index_object in
    resource_categories ← get_unique_resource_categories_as_strings;
    (if decide (old_category ∉ resource_categories)
     then session_delete_category old_category
     else mret tt);;
    mret (resource, index_object)
  else mret (resource, index_object).

(** Lines 75-77. *)
Definition stage_name (id : Z) (json : Dict) (resource : Resource)
    (index_object : Dict) : M (Resource * Dict) :=
  if truthy (dict_get json "name") then
    resource ← assign id (with_name (dict_get json "name") resource);
    mret (resource, <["name" := dict_get json "name"]> index_object)
  else mret (resource, index_object).

(** Lines 78-80. *)
Definition stage_url (id : Z) (json : Dict) (resource : Resource)
    (index_object : Dict) : M (Resource * Dict) :=
  if truthy (dict_get json "url") then
    resource ← assign id (with_url (dict_get json "url") resource);
    mret (resource, <["url" := dict_get json "url"]> index_object)
  else mret (resource, index_object).

(** Lines 81-84. *)
Definition stage_free (id : Z) (json : Dict) (resource : Resource)
    (index_object : Dict) : M (Resource * Dict) :=
  if dict_contains json "free" then
    free ← call_ensure_bool (dict_get json "free");
    resource ← assign id (with_free free resource);
    mret (resource, <["free" := VBool free]> index_object)
  else mret (resource, index_object).

(** Lines 85-87. *)
Definition stage_notes (id : Z) (json : Dict) (resource : Resource)
    (index_object : Dict) : M (Resource * Dict) :=
  if dict_contains json "notes" then
    resource ← assign id (with_notes (dict_get json "notes") resource);
    mret (resource, <["notes" := dict_get json "notes"]> index_object)
  else mret (resource, index_object).

(** Lines 89-98: [Some response] is the early [return] of the handler. *)
Definition synchronize (resource : Resource) (index_object : Dict)
    : M (option Response) :=
  try_except
    (index_partial_update_object index_object;; mret None)
    is_algolia_exception
    (λ e,
      if decide (environ !! "FLASK_ENV" ≠ Some "development") then
        mret (Some (standardize_response (AlgoliaFailed (name resource))
                      (Some 500)))
      else mret None).

Definition update_resource (g : G) (id : Z) (json : Dict) : M Response :=
  resource ← Resource_query_get id;
  api_key ← g_auth_key_apikey g;
  match resource with
  | None => mret (redirect "/404")
  | Some resource =>
      let '(langs, categ) := get_attributes json in
      let index_object : Dict := {["objectID" := VInt id]} in
      try_except
        ('(resource, index_object) ←
           stage_languages id api_key json langs resource index_object;
         '(resource, index_object) ←
           stage_category id json categ resource index_object;
         '(resource, index_object) ←
           stage_name id json resource index_object;
         '(resource, index_object) ←
           stage_url id json resource index_object;
         '(resource, index_object) ←
           stage_free id json resource index_object;
         '(resource, index_object) ←
           stage_notes id json resource index_object;
         returned ← synchronize resource index_object;
         match returned with
         | Some response => mret response
         | None =>
             (* Wait to commit the changes until we know that Aloglia
                was updated *)
             commit;;
             mret (standardize_response
                     (ResourceData resource (Some api_key)) None)
         end)
        (λ _, true)
        (λ e,
          match e with
          | IntegrityError =>
              mret (standardize_response NoPayload (Some 422))
          | _ => mret (standardize_response NoPayload (Some 500))
          end)
  end.

End UpdateResource.

(** ** Vote ledger: the transition table of the specification *)

Inductive Direction := Upvote | Downvote.
Inductive LedgerState := NONE | UPVOTED | DOWNVOTED.

Definition direction_name (d : Direction) : string :=
  match d with Upvote => "upvote" | Downvote => "downvote" end.

(** The state a voter is in after a first vote in direction [d]. *)
Definition state_of (d : Direction) : LedgerState :=
  match d with Upvote => UPVOTED | Downvote => DOWNVOTED end.

Definition opposite (d : Direction) : Direction :=
  match d with Upvote => Downvote | Downvote => Upvote end.

(** The table, row by row: new state, change of [upvotes], change of
    [downvotes]. *)
Definition cast_table (s : LedgerState) (d : Direction)
    : LedgerState * (Z * Z) :=
  match s, d with
  | NONE, Upvote => (UPVOTED, (1, 0))
  | NONE, Downvote => (DOWNVOTED, (0, 1))
  | UPVOTED, Upvote => (NONE, (-1, 0))
  | UPVOTED, Downvote => (DOWNVOTED, (-1, 1))
  | DOWNVOTED, Upvote => (UPVOTED, (1, -1))
  | DOWNVOTED, Downvote => (NONE, (0, -1))
  end.

(** The column value that stands for a ledger state. *)
Definition state_direction (s : LedgerState) : option string :=
  match s with
  | NONE => None
  | UPVOTED => Some "upvote"
  | DOWNVOTED => Some "downvote"
  end.

(** The ledger state a stored direction stands for. *)
Definition direction_state (d : option string) : LedgerState :=
  match d with
  | None => NONE
  | Some s =>
      if decide (s = "upvote") then UPVOTED
      else if decide (s = "downvote") then DOWNVOTED
      else NONE
  end.

(** The ledger state of a voter for a resource; no row means [NONE]. *)
Definition ledger_state (db : DB) (api_key : string) (id : Z) : LedgerState :=
  match vote_information_table db !! (api_key, id) with
  | None => NONE
  | Some v => direction_state (current_direction v)
  end.

(** The same, of the row the handler found. *)
Definition row_state (row : option VoteInformation) : LedgerState :=
  match row with
  | None => NONE
  | Some v => direction_state (current_direction v)
  end.

(** ** One vote and two votes in closed form

    What [change_votes] commits for a valid direction, written with the
    table; [change_votes_run] below proves that the handler computes it. *)

Definition cast_resource (s : LedgerState) (d : Direction) (r : Resource)
    : Resource :=
  mkResource (name r) (url r) (free r) (notes r)
    (upvotes r + (cast_table s d).2.1) (downvotes r + (cast_table s d).2.2)
    (times_clicked r) (languages r) (category r).

Definition cast_row (d : Direction) (row : option VoteInformation)
    (link : option string) : VoteInformation :=
  mkVoteInformation (state_direction (cast_table (row_state row) d).1)
    (match row with Some v => voter v | None => link end).

Definition cast_db (api_key : string) (id : Z) (d : Direction) (r : Resource)
    (db : DB) : DB :=
  let row := vote_information_table db !! (api_key, id) in
  mkDB (<[id := cast_resource (row_state row) d r]> (resource_table db))
    (language_table db) (category_table db)
    (<[(api_key, id) :=
         cast_row d row
           (if decide (api_key ∈ key_table db) then Some api_key else None)]>
       (vote_information_table db))
    (key_table db).

(** Two casts in a row of the same direction. *)
Definition cast_twice (g : G) (id : Z) (d : Direction) (db : DB) : DB :=
  database
    (change_votes g id (direction_name d)
       (change_votes g id (direction_name d) (mkState db db [])).2).2.

(** Ledger states reachable by votes from an empty ledger. *)
Inductive ledger_reachable : DB → Prop :=
  | reachable_empty db :
      vote_information_table db = ∅ → ledger_reachable db
  | reachable_cast db g id d :
      ledger_reachable db →
      ledger_reachable
        (database (change_votes g id (direction_name d)
                     (mkState db db [])).2).

(** The toggle property as the specification words it. *)
Definition double_cast_restores (g : G) (k : Key) (id : Z) (d : Direction)
    (db : DB) : Prop :=
  ∀ r, resource_table db !! id = Some r →
  ledger_state (cast_twice g id d db) (apikey k) id = NONE
  ∧ ∃ r2, resource_table (cast_twice g id d db) !! id = Some r2
          ∧ upvotes r2 = upvotes r ∧ downvotes r2 = downvotes r.

(** ** Sequences of clicks *)

(** The clicks of a list of callers, one request each, in order. *)
Definition clicks (callers : list G) (id : Z) (st : State) : State :=
  foldl (λ st g, (update_resource_click g id st).2) st callers.

(** The resource with [n] more clicks. *)
Definition clicked (n : Z) (r : Resource) : Resource :=
  mkResource (name r) (url r) (free r) (notes r) (upvotes r) (downvotes r)
    (times_clicked r + n) (languages r) (category r).

(** ** Counters and ledger *)

(** The ledger rows of resource [id] whose direction is [direction]. *)
Definition counts_toward (id : Z) (direction : string)
    (row : (string * Z) * VoteInformation) : Prop :=
  row.1.2 = id ∧ current_direction row.2 = Some direction.

#[global] Instance counts_toward_dec id direction row :
  Decision (counts_toward id direction row).
Proof. unfold counts_toward. apply _. Defined.

(** The number of such rows. *)
Definition count_direction (V : gmap (string * Z) VoteInformation) (id : Z)
    (direction : string) : nat :=
  size (filter (counts_toward id direction) V).

(** Every resource's [upvotes] and [downvotes] are the numbers of its
    ledger rows with direction upvote and downvote. *)
Definition counters_match_ledger (db : DB) : Prop :=
  map_Forall (λ id r,
      upvotes r
      = Z.of_nat (count_direction (vote_information_table db) id "upvote")
      ∧ downvotes r
        = Z.of_nat
            (count_direction (vote_information_table db) id "downvote"))
    (resource_table db).

#[global] Instance counters_match_ledger_dec db :
  Decision (counters_match_ledger db).
Proof. unfold counters_match_ledger. apply _. Defined.

(** 1 when [P] holds, 0 otherwise. *)
Definition indicator (P : Prop) `{Decision P} : Z := if decide P then 1 else 0.

(** The requests this module serves. *)
Inductive Operation :=
  | VoteCast (id : Z) (vote_direction : string)
  | ResourceUpdate (id : Z) (json : Dict)
  | Click (id : Z).

Section Perform.

Variable get_attributes : Dict → list string * string.
Variable ensure_bool : value → option bool.
Variable serialize_languages : Resource → string → value.
Variable environ : gmap string string.
Variable index_outcome : Dict → option exn.

(** One request, served by the handler of its route. *)
Definition perform (g : G) (op : Operation) : M Response :=
  match op with
  | VoteCast id vote_direction => change_votes g id vote_direction
  | ResourceUpdate id json =>
      update_resource get_attributes ensure_bool serialize_languages
        environ index_outcome g id json
  | Click id => update_resource_click g id
  end.

End Perform.

(** ** Which fields a document selects (the rules of the specification) *)

(** The key is present. *)
Definition present (json : Dict) (key : string) : bool :=
  match json !! key with Some _ => true | None => false end.

(** The key is present and its value is not null. *)
Definition present_not_null (json : Dict) (key : string) : bool :=
  match json !! key with
  | Some VNone => false
  | Some _ => true
  | None => false
  end.

(** The key is present and its value is truthy. *)
Definition present_truthy (json : Dict) (key : string) : bool :=
  match json !! key with Some v => truthy v | None => false end.

(** [languages] when present and not null; [category], [name], [url] when
    present and truthy; [free], [notes] when present at all. *)
Definition selects (json : Dict) (field : string) : bool :=
  if decide (field = "languages") then present_not_null json field
  else if decide (field ∈ ["category"; "name"; "url"])
       then present_truthy json field
  else if decide (field ∈ ["free"; "notes"]) then present json field
  else false.

(** ** Tags in use *)

(** Some resource of the datastore has the language, resp. the category. *)
Definition language_referenced (db : DB) (language : string) : Prop :=
  ∃ id r, resource_table db !! id = Some r ∧ language ∈ languages r.

Definition category_referenced (db : DB) (categ : string) : Prop :=
  ∃ id r, resource_table db !! id = Some r ∧ category r = categ.

(** What the two scans of [update_resource] collect from a resource table. *)
Definition languages_in_use (tbl : gmap Z Resource) : gset string :=
  list_to_set (concat (languages <$> (map_to_list tbl).*2)).

Definition categories_in_use (tbl : gmap Z Resource) : gset string :=
  list_to_set (category <$> (map_to_list tbl).*2).

(** ** The staging steps of [update_resource] in closed form

    The local variables and the session after lines 60-87, as functions of
    the document; [update_resource_run] below proves that the handler
    computes them. *)

(** [f x] when the guard holds, [x] otherwise. *)
Definition step_if {A} (b : bool) (f : A → A) (x : A) : A :=
  if b then f x else x.

(** The value [free] takes: [None] when [ensure_bool] raises. *)
Definition staged_free (ensure_bool : value → option bool) (json : Dict)
    (r : Resource) : option bool :=
  if dict_contains json "free" then ensure_bool (dict_get json "free")
  else Some (free r).

(** The resource after the four steps that cannot raise. *)
Definition staged_head (json : Dict) (langs : list string) (categ : string)
    (r : Resource) : Resource :=
  step_if (truthy (dict_get json "url")) (with_url (dict_get json "url"))
    (step_if (truthy (dict_get json "name"))
       (with_name (dict_get json "name"))
       (step_if (truthy (dict_get json "category")) (with_category categ)
          (step_if (is_not_None (dict_get json "languages"))
             (with_languages langs) r))).

(** The resource after all six steps, [fr] being the value of [free]. *)
Definition staged_resource (json : Dict) (langs : list string)
    (categ : string) (fr : bool) (r : Resource) : Resource :=
  step_if (dict_contains json "notes") (with_notes (dict_get json "notes"))
    (step_if (dict_contains json "free") (with_free fr)
       (staged_head json langs categ r)).

(** The patch built for the search index. *)
Definition staged_index_object (id : Z) (json : Dict) (languages_entry : value)
    (categ : string) (fr : bool) : Dict :=
  step_if (dict_contains json "notes")
    (insert "notes" (dict_get json "notes"))
    (step_if (dict_contains json "free") (insert "free" (VBool fr))
       (step_if (truthy (dict_get json "url"))
          (insert "url" (dict_get json "url"))
          (step_if (truthy (dict_get json "name"))
             (insert "name" (dict_get json "name"))
             (step_if (truthy (dict_get json "category"))
                (insert "category" (VStr categ))
                (step_if (is_not_None (dict_get json "languages"))
                   (insert "languages" languages_entry)
                   {["objectID" := VInt id]}))))).

(** The language and category tables of the session after the two scans. *)
Definition staged_language_table (id : Z) (json : Dict) (langs : list string)
    (r : Resource) (db : DB) : gset string :=
  step_if (is_not_None (dict_get json "languages"))
    (λ LT, (LT ∪ list_to_set langs)
           ∖ (list_to_set (languages r)
              ∖ languages_in_use
                  (<[id := with_languages langs r]> (resource_table db))))
    (language_table db).

Definition staged_category_table (id : Z) (json : Dict) (langs : list string)
    (categ : string) (r : Resource) (db : DB) : gset string :=
  let r1 := step_if (is_not_None (dict_get json "languages"))
              (with_languages langs) r in
  step_if (truthy (dict_get json "category"))
    (λ CT, (CT ∪ {[categ]})
           ∖ ({[category r]}
              ∖ categories_in_use
                  (<[id := with_category categ r1]> (resource_table db))))
    (category_table db).

(** The session after all six steps, [r'] being the staged resource. *)
Definition staged_session (id : Z) (json : Dict) (langs : list string)
    (categ : string) (r' r : Resource) (db : DB) : DB :=
  mkDB (<[id := r']> (resource_table db))
    (staged_language_table id json langs r db)
    (staged_category_table id json langs categ r db)
    (vote_information_table db) (key_table db).

(** ** Sample data: the scenario of the specification *)

Definition Foo : Resource :=
  mkResource (VStr "Foo") (VStr "https://foo.example") true VNone 0 0 0
    ["Python"] "Books".

Definition Bar : Resource :=
  mkResource (VStr "Bar") (VStr "https://bar.example") false (VStr "n") 0 0 0
    ["Python"; "Go"] "Videos".

Definition scenario_db : DB :=
  mkDB {[1 := Foo; 2 := Bar]} {["Python"; "Go"]} {["Books"; "Videos"]} ∅
    {["A"]}.

Definition voter_A : G := mkG (Some (mkKey "A")).
Definition anonymous : G := mkG None.

(** The datastore after voter A has cast one upvote on resource 1. *)
Definition scenario_upvoted : DB :=
  database (change_votes voter_A 1 "upvote"
              (mkState scenario_db scenario_db [])).2.

(** Sample collaborators, to run [update_resource] on concrete inputs: the
    names a document lists, a boolean parser, the language names as a list,
    an index that is down, and the two kinds of environment. *)
Definition sample_get_attributes (json : Dict) : list string * string :=
  (match json !! "languages" with
   | Some (VList l) =>
       omap (λ v, match v with VStr s => Some s | _ => None end) l
   | _ => []
   end,
   match json !! "category" with Some (VStr s) => s | _ => "" end).

Definition sample_ensure_bool (v : value) : option bool :=
  match v with
  | VBool b => Some b
  | VInt n => Some (negb (n =? 0))
  | VStr s =>
      if decide (s = "true") then Some true
      else if decide (s = "false") then Some false
      else None
  | _ => None
  end.

Definition sample_serialize_languages (r : Resource) (api_key : string)
    : value :=
  VList (VStr <$> languages r).

Definition index_up : Dict → option exn := λ _, None.

Definition index_down : Dict → option exn :=
  λ _, Some AlgoliaUnreachableHostException.

Definition production : gmap string string := {["FLASK_ENV" := "production"]}.

Definition development : gmap string string :=
  {["FLASK_ENV" := "development"]}.

Definition sample_update (environ : gmap string string)
    (index_outcome : Dict → option exn) : G → Z → Dict → M Response :=
  update_resource sample_get_attributes sample_ensure_bool
    sample_serialize_languages environ index_outcome.

(** Resource 2 gives up Python and Go for Rust, and Videos for Books. *)
Definition retag : Dict :=
  {["languages" := VList [VStr "Rust"]; "category" := VStr "Books"]}.

Definition Bar_retagged : Resource :=
  mkResource (VStr "Bar") (VStr "https://bar.example") false (VStr "n") 0 0 0
    ["Rust"] "Books".

(** A document that sets [free] to false and [notes] to null, and whose
    [name] is empty. *)
Definition falsy_fields : Dict :=
  {["free" := VBool false; "notes" := VNone; "name" := VStr ""]}.

Definition Foo_cleared : Resource :=
  mkResource (VStr "Foo") (VStr "https://foo.example") false VNone 0 0 0
    ["Python"] "Books".

(** ** The route of [update_resource]

    [put_resource] (lines 17-33) receives the body as [request.get_json()]
    returns it, a dict or some other JSON value, and answers without
    calling [update_resource] when the body is not a dict or when
    [validate_resource], which lives outside this module, reports errors. *)



Section PutResource.

Variable validate_resource : string → Dict → Z → value.
Variable get_attributes : Dict → list string * string.
Variable ensure_bool : value → option bool.
Variable serialize_languages : Resource → string → value.
Variable environ : gmap string string.
Variable index_outcome : Dict → option exn.


End PutResource.

(** ** Tag tables that hold exactly the tags in use *)

Definition tag_tables_exact (db : DB) : Prop :=
  language_table db = languages_in_use (resource_table db)
  ∧ category_table db = categories_in_use (resource_table db).

#[global] Instance tag_tables_exact_dec db : Decision (tag_tables_exact db).
Proof. unfold tag_tables_exact. apply _. Defined.

(** A second voter, a document with a value [ensure_bool] rejects, a
    document that renames resource 1, an index that fails in an unforeseen
    way, and a validator that wants a [name] in every document. *)
Definition voter_B : G := mkG (Some (mkKey "B")).

Definition bad_free : Dict := {["free" := VStr "maybe"; "name" := VStr "New"]}.

Definition rename : Dict := {["name" := VStr "New"]}.

Definition index_broken : Dict → option exn := λ _, Some OtherException.


(** ** Proof tools *)

Ltac unfold_handler :=
  cbv [mbind M_bind mret M_ret raise try_except get_session modify_session
       commit Resource_query_get VoteInformation_query_get Key_query_first
       g_auth_key_apikey getattr setattr voters_append
       set_current_direction];
  cbn [session database index_calls fst snd].

(** Settles every [decide] between two string literals. *)
Ltac decide_literals :=
  repeat match goal with
  | |- context [decide (?a = ?b)] =>
      first [ rewrite (decide_True (P := a = b)) by reflexivity
            | rewrite (decide_False (P := a = b)) by discriminate ]
  end.

(** ** One vote *)

Lemma vote_attribute d :
  direction_name d +:+ "s"
  = match d with Upvote => "upvotes" | Downvote => "downvotes" end.
Proof. by destruct d. Qed.

Lemma drop_last_upvotes : drop_last "upvotes" = "upvote".
Proof. reflexivity. Qed.

Lemma drop_last_downvotes : drop_last "downvotes" = "downvote".
Proof. reflexivity. Qed.

Ltac vote_step :=
  unfold_handler;
  rewrite ?drop_last_upvotes, ?drop_last_downvotes;
  cbn [direction_name direction_state session database index_calls
       fst snd name url free notes upvotes downvotes times_clicked languages
       category current_direction voter];
  decide_literals.

Lemma direction_state_other s :
  s ≠ "upvote" → s ≠ "downvote" → direction_state (Some s) = NONE.
Proof.
  intros H1 H2. unfold direction_state.
  rewrite !decide_False by done. done.
Qed.

Lemma direction_state_upvote : direction_state (Some "upvote") = UPVOTED.
Proof. reflexivity. Qed.

Lemma direction_state_downvote :
  direction_state (Some "downvote") = DOWNVOTED.
Proof. reflexivity. Qed.

Lemma change_votes_run g k db calls id r d :
  auth_key g = Some k →
  resource_table db !! id = Some r →
  change_votes g id (direction_name d) (mkState db db calls)
  = (inr (standardize_response
            (ResourceData
               (cast_resource
                  (row_state (vote_information_table db !! (apikey k, id)))
                  d r)
               (Some (apikey k))) None),
     mkState (cast_db (apikey k) id d r db) (cast_db (apikey k) id d r db)
       calls).
Proof.
  intros Hk Hr. unfold change_votes.
  rewrite decide_True by (destruct d; set_solver).
  rewrite vote_attribute.
  unfold update_votes, cast_db. destruct r as [n u f nt up dn tc ls c].
  destruct d; vote_step; rewrite Hr, Hk; vote_step;
    (destruct (vote_information_table db !! (apikey k, id)) as [[cd vt]|]
       eqn:Hv; cbn [row_state current_direction voter];
     [ destruct cd as [s|];
       [ destruct (decide (s = "upvote")) as [->|Hu];
         [| destruct (decide (s = "downvote")) as [->|Hd] ] |] |]).
  all: try rewrite (direction_state_other s) by done.
  all: vote_step; rewrite Hv; vote_step.
  all: repeat match goal with
       | |- context [decide (Some ?a = Some ?b)] =>
           first [ rewrite (decide_True (P := Some a = Some b)) by reflexivity
                 | rewrite (decide_False (P := Some a = Some b)) by congruence ]
       | |- context [decide (None = Some ?b)] =>
           rewrite (decide_False (P := None = Some b)) by discriminate
       end.
  all: unfold with_counter, cast_resource, cast_row, put_vote_row,
         put_resource_row, row_state.
  all: vote_step.
  all: rewrite ?direction_state_upvote, ?direction_state_downvote,
         ?(direction_state_other s) by done.
  all: cbn [cast_table state_direction fst snd resource_table language_table
            category_table vote_information_table key_table].
  all: rewrite ?insert_insert_eq.
  all: repeat f_equal; try lia.
  all: rewrite (decide_False (P := s = "upvote")),
         (decide_False (P := s = "downvote")) by done; reflexivity.
Qed.

(** ** The staging steps of [update_resource] *)

Ltac stage_step :=
  unfold_handler;
  cbv [assign_languages assign_category assign session_delete_language
       session_delete_category Resource_query_all
       get_unique_resource_categories_as_strings
       get_unique_resource_languages_as_strings
       mbind M_bind mret M_ret modify_session get_session
       put_resource_row add_language_rows add_category_row
       delete_language_row delete_category_row];
  cbn [session database index_calls fst snd resource_table language_table
       category_table vote_information_table key_table].

Lemma for_each_delete_languages (old : list string) (U : gset string)
    T LT CT V K d c :
  for_each old (λ language,
      if decide (language ∉ U) then session_delete_language language
      else mret tt)
    (mkState (mkDB T LT CT V K) d c)
  = (inr tt, mkState (mkDB T (LT ∖ (list_to_set old ∖ U)) CT V K) d c).
Proof.
  revert LT. induction old as [|x old IH]; intros LT.
  - cbn. unfold mret, M_ret. do 3 f_equal. set_solver.
  - cbn [for_each]. unfold mbind at 1, M_bind at 1.
    destruct (decide (x ∉ U)) as [Hx|Hx].
    + stage_step. rewrite IH. do 3 f_equal. set_solver.
    + stage_step. rewrite IH. do 3 f_equal.
      apply dec_stable in Hx. set_solver.
Qed.

Section StagesRun.

Lemma stage_languages_run (serialize_languages : Resource → string → value)
    id k json langs r io tbl LT CT V K d c :
  let b := is_not_None (dict_get json "languages") in
  let r' := step_if b (with_languages langs) r in
  stage_languages serialize_languages id k json langs r io
    (mkState (mkDB (<[id := r]> tbl) LT CT V K) d c)
  = (inr (r', step_if b (insert "languages" (serialize_languages r' k)) io),
     mkState
       (mkDB (<[id := r']> tbl)
          (step_if b (λ LT, (LT ∪ list_to_set langs)
                            ∖ (list_to_set (languages r)
                               ∖ languages_in_use (<[id := r']> tbl))) LT)
          CT V K) d c).
Proof.
  unfold stage_languages, step_if.
  destruct (is_not_None (dict_get json "languages")); [|done].
  stage_step. rewrite insert_insert_eq.
  fold (languages_in_use (<[id := with_languages langs r]> tbl)).
  rewrite for_each_delete_languages. reflexivity.
Qed.

Lemma stage_category_run id json categ r io tbl LT CT V K d c :
  let b := truthy (dict_get json "category") in
  let r' := step_if b (with_category categ) r in
  stage_category id json categ r io
    (mkState (mkDB (<[id := r]> tbl) LT CT V K) d c)
  = (inr (r', step_if b (insert "category" (VStr categ)) io),
     mkState
       (mkDB (<[id := r']> tbl) LT
          (step_if b (λ CT, (CT ∪ {[categ]})
                            ∖ ({[category r]}
                               ∖ categories_in_use (<[id := r']> tbl))) CT)
          V K) d c).
Proof.
  unfold stage_category, step_if.
  destruct (truthy (dict_get json "category")); [|done].
  stage_step. rewrite insert_insert_eq.
  fold (categories_in_use (<[id := with_category categ r]> tbl)).
  destruct (decide (category r
                    ∉ categories_in_use (<[id := with_category categ r]> tbl)))
    as [Hx|Hx]; stage_step; do 3 f_equal.
  - set_solver.
  - apply dec_stable in Hx. set_solver.
Qed.

Lemma stage_name_run id json r io tbl LT CT V K d c :
  let b := truthy (dict_get json "name") in
  let r' := step_if b (with_name (dict_get json "name")) r in
  stage_name id json r io (mkState (mkDB (<[id := r]> tbl) LT CT V K) d c)
  = (inr (r', step_if b (insert "name" (dict_get json "name")) io),
     mkState (mkDB (<[id := r']> tbl) LT CT V K) d c).
Proof.
  unfold stage_name, step_if.
  destruct (truthy (dict_get json "name")); [|done].
  stage_step. by rewrite insert_insert_eq.
Qed.

Lemma stage_url_run id json r io tbl LT CT V K d c :
  let b := truthy (dict_get json "url") in
  let r' := step_if b (with_url (dict_get json "url")) r in
  stage_url id json r io (mkState (mkDB (<[id := r]> tbl) LT CT V K) d c)
  = (inr (r', step_if b (insert "url" (dict_get json "url")) io),
     mkState (mkDB (<[id := r']> tbl) LT CT V K) d c).
Proof.
  unfold stage_url, step_if.
  destruct (truthy (dict_get json "url")); [|done].
  stage_step. by rewrite insert_insert_eq.
Qed.

Lemma stage_free_run (ensure_bool : value → option bool)
    id json r io tbl LT CT V K d c :
  let b := dict_contains json "free" in
  stage_free ensure_bool id json r io
    (mkState (mkDB (<[id := r]> tbl) LT CT V K) d c)
  = match staged_free ensure_bool json r with
    | Some fr =>
        (inr (step_if b (with_free fr) r,
              step_if b (insert "free" (VBool fr)) io),
         mkState (mkDB (<[id := step_if b (with_free fr) r]> tbl)
                    LT CT V K) d c)
    | None =>
        (inl OtherException,
         mkState (mkDB (<[id := r]> tbl) LT CT V K) d c)
    end.
Proof.
  unfold stage_free, staged_free, step_if, call_ensure_bool.
  destruct (dict_contains json "free"); [|done].
  destruct (ensure_bool (dict_get json "free")); stage_step; [|done].
  by rewrite insert_insert_eq.
Qed.

Lemma stage_notes_run id json r io tbl LT CT V K d c :
  let b := dict_contains json "notes" in
  let r' := step_if b (with_notes (dict_get json "notes")) r in
  stage_notes id json r io (mkState (mkDB (<[id := r]> tbl) LT CT V K) d c)
  = (inr (r', step_if b (insert "notes" (dict_get json "notes")) io),
     mkState (mkDB (<[id := r']> tbl) LT CT V K) d c).
Proof.
  unfold stage_notes, step_if.
  destruct (dict_contains json "notes"); [|done].
  stage_step. by rewrite insert_insert_eq.
Qed.

End StagesRun.

Section UpdateResourceRun.

Variable get_attributes : Dict → list string * string.
Variable ensure_bool : value → option bool.
Variable serialize_languages : Resource → string → value.
Variable environ : gmap string string.
Variable index_outcome : Dict → option exn.

Lemma free_staged_head json langs categ r :
  free (staged_head json langs categ r) = free r.
Proof. unfold staged_head, step_if. by repeat case_match. Qed.

Lemma update_resource_run g k id json db d c r langs categ :
  auth_key g = Some k →
  resource_table db !! id = Some r →
  get_attributes json = (langs, categ) →
  update_resource get_attributes ensure_bool serialize_languages environ
    index_outcome g id json (mkState db d c)
  = match staged_free ensure_bool json r with
    | None =>
        (inr (standardize_response NoPayload (Some 500)),
         mkState
           (staged_session id json langs categ
              (staged_head json langs categ r) r db) d c)
    | Some fr =>
        let r' := staged_resource json langs categ fr r in
        let io :=
          staged_index_object id json
            (serialize_languages (with_languages langs r) (apikey k))
            categ fr in
        let sess := staged_session id json langs categ r' r db in
        let ok :=
          standardize_response (ResourceData r' (Some (apikey k))) None in
        match index_outcome io with
        | None => (inr ok, mkState sess sess (c ++ [io]))
        | Some e =>
            if is_algolia_exception e then
              if decide (environ !! "FLASK_ENV" ≠ Some "development") then
                (inr (standardize_response (AlgoliaFailed (name r'))
                        (Some 500)),
                 mkState sess d (c ++ [io]))
              else (inr ok, mkState sess sess (c ++ [io]))
            else
              (inr (standardize_response NoPayload
                      (Some (match e with
                             | IntegrityError => 422
                             | _ => 500
                             end))),
               mkState sess d (c ++ [io]))
        end
    end.
Proof.
  intros Hk Hr Hga. unfold update_resource.
  destruct db as [tbl LT CT V K]. cbn [resource_table] in Hr.
  unfold_handler. cbn [resource_table]. rewrite Hr, Hk, Hga.
  rewrite <- (insert_id tbl id r Hr) at 1.
  unfold try_except.
  rewrite stage_languages_run. cbv beta iota zeta.
  rewrite stage_category_run. cbv beta iota zeta.
  rewrite stage_name_run. cbv beta iota zeta.
  rewrite stage_url_run. cbv beta iota zeta.
  rewrite stage_free_run. cbv beta iota zeta.
  fold (staged_head json langs categ r).
  unfold staged_free at 1. rewrite free_staged_head.
  fold (staged_free ensure_bool json r).
  unfold staged_session, staged_language_table, staged_category_table.
  cbn [resource_table language_table category_table
       vote_information_table key_table].
  destruct (staged_free ensure_bool json r) as [fr|].
  - rewrite stage_notes_run. cbv beta iota zeta.
    fold (staged_resource json langs categ fr r).
    unfold synchronize, index_partial_update_object, try_except.
    unfold_handler. unfold staged_index_object.
    destruct (is_not_None (dict_get json "languages"));
      destruct (truthy (dict_get json "category")); cbn [step_if category
        with_languages];
      (match goal with
       | |- context [index_outcome ?io] =>
           destruct (index_outcome io) as [[]|]
       end; cbn [is_algolia_exception];
       try destruct (decide (environ !! "FLASK_ENV" ≠ Some "development"));
       reflexivity).
  - destruct (is_not_None (dict_get json "languages"));
      destruct (truthy (dict_get json "category")); reflexivity.
Qed.

End UpdateResourceRun.

(** ** The transition table holds *)

Lemma direction_state_state_direction s :
  direction_state (state_direction s) = s.
Proof. by destruct s. Qed.

Lemma cast_db_resource api_key id d r db :
  resource_table (cast_db api_key id d r db) !! id
  = Some (cast_resource
            (row_state (vote_information_table db !! (api_key, id))) d r).
Proof. unfold cast_db. cbn [resource_table]. apply lookup_insert_eq. Qed.

Lemma cast_db_row api_key id d r db :
  vote_information_table (cast_db api_key id d r db) !! (api_key, id)
  = Some (cast_row d (vote_information_table db !! (api_key, id))
            (if decide (api_key ∈ key_table db) then Some api_key else None)).
Proof. unfold cast_db. cbn [vote_information_table]. apply lookup_insert_eq. Qed.

Lemma cast_db_ledger_state api_key id d r db :
  ledger_state (cast_db api_key id d r db) api_key id
  = (cast_table (ledger_state db api_key id) d).1.
Proof.
  unfold ledger_state at 1. rewrite cast_db_row. unfold cast_row.
  cbn [current_direction]. apply direction_state_state_direction.
Qed.

(** C1: with an authenticated voter and an existing resource, one
    [change_votes] request in direction [d] commits exactly the row of the
    transition table selected by the voter's current ledger state: the ledger
    row exists afterwards and holds the new state, [upvotes] and [downvotes]
    move by the table's amounts, and a voter without a row (state NONE) gets
    a row created in the requested direction. *)
Theorem C1_cast_follows_transition_table g k db calls id r d :
  auth_key g = Some k →
  resource_table db !! id = Some r →
  let s := ledger_state db (apikey k) id in
  let st' := (change_votes g id (direction_name d) (mkState db db calls)).2 in
  ∃ r' row',
    resource_table (database st') !! id = Some r'
    ∧ vote_information_table (database st') !! (apikey k, id) = Some row'
    ∧ current_direction row' = state_direction (cast_table s d).1
    ∧ ledger_state (database st') (apikey k) id = (cast_table s d).1
    ∧ upvotes r' = upvotes r + (cast_table s d).2.1
    ∧ downvotes r' = downvotes r + (cast_table s d).2.2
    ∧ (vote_information_table db !! (apikey k, id) = None →
       current_direction row' = Some (direction_name d)
       ∧ (cast_table s d).2 = match d with
                              | Upvote => (1, 0)
                              | Downvote => (0, 1)
                              end).
Proof.
  intros Hk Hr s st'. subst st'.
  rewrite (change_votes_run g k db calls id r d Hk Hr). cbn [snd database].
  eexists _, _. split; [apply cast_db_resource|].
  split; [apply cast_db_row|].
  split; [reflexivity|].
  split; [apply cast_db_ledger_state|].
  split; [reflexivity|]. split; [reflexivity|].
  intros Hnone. subst s. unfold ledger_state, cast_row. rewrite Hnone.
  by destruct d.
Qed.

Lemma C1_witness :
  ∃ r' row',
    resource_table scenario_upvoted !! 1 = Some r'
    ∧ vote_information_table scenario_upvoted !! ("A", 1) = Some row'
    ∧ current_direction row' = Some "upvote"
    ∧ ledger_state scenario_upvoted "A" 1 = UPVOTED
    ∧ upvotes r' = 1
    ∧ downvotes r' = 0
    ∧ (vote_information_table scenario_db !! ("A", 1) = None →
       current_direction row' = Some "upvote" ∧ (1, 0) = (1, 0)).
Proof.
  exact (C1_cast_follows_transition_table voter_A (mkKey "A") scenario_db []
           1 Foo Upvote eq_refl eq_refl).
Defined.

(** The scenario of the specification: voter A casts upvote, downvote,
    downvote on resource 1. *)
Example scenario_of_the_specification :
  let vote d db :=
    database (change_votes voter_A 1 d (mkState db db [])).2 in
  let db1 := vote "upvote" scenario_db in
  let db2 := vote "downvote" db1 in
  let db3 := vote "downvote" db2 in
  (upvotes <$> resource_table db1 !! 1,
   current_direction <$> vote_information_table db1 !! ("A", 1))
  = (Some 1, Some (Some "upvote"))
  ∧ (upvotes <$> resource_table db2 !! 1,
     downvotes <$> resource_table db2 !! 1,
     current_direction <$> vote_information_table db2 !! ("A", 1))
    = (Some 0, Some 1, Some (Some "downvote"))
  ∧ (downvotes <$> resource_table db3 !! 1,
     current_direction <$> vote_information_table db3 !! ("A", 1))
    = (Some 0, Some None).
Proof. vm_compute. done. Qed.

Lemma row_state_cast_row d row link :
  row_state (Some (cast_row d row link)) = (cast_table (row_state row) d).1.
Proof. apply direction_state_state_direction. Qed.

Lemma cast_twice_run g k db id r d :
  auth_key g = Some k →
  resource_table db !! id = Some r →
  let s := ledger_state db (apikey k) id in
  let s1 := (cast_table s d).1 in
  ledger_state (cast_twice g id d db) (apikey k) id = (cast_table s1 d).1
  ∧ ∃ r2,
      resource_table (cast_twice g id d db) !! id = Some r2
      ∧ upvotes r2
        = upvotes r + (cast_table s d).2.1 + (cast_table s1 d).2.1
      ∧ downvotes r2
        = downvotes r + (cast_table s d).2.2 + (cast_table s1 d).2.2.
Proof.
  intros Hk Hr s s1. unfold cast_twice.
  rewrite (change_votes_run g k db [] id r d Hk Hr). cbn [snd].
  rewrite (change_votes_run g k _ [] id _ d Hk (cast_db_resource _ _ _ _ _)).
  cbn [snd database]. rewrite !cast_db_ledger_state. split; [done|].
  eexists. split; [apply cast_db_resource|].
  rewrite cast_db_row, row_state_cast_row.
  unfold cast_resource. cbn [upvotes downvotes]. done.
Qed.

(** C7 (as stated, refuted): voter A has upvoted resource 1, a state reached
    from the empty ledger by one cast; two further upvotes leave A in state
    UPVOTED, not NONE. *)
Lemma C7_counterexample :
  ledger_reachable scenario_upvoted
  ∧ ¬ double_cast_restores voter_A (mkKey "A") 1 Upvote scenario_upvoted.
Proof.
  split.
  - apply (reachable_cast scenario_db voter_A 1 Upvote).
    by apply reachable_empty.
  - intros H.
    destruct (H (mkResource (VStr "Foo") (VStr "https://foo.example") true
                   VNone 1 0 0 ["Python"] "Books") eq_refl) as [Hs _].
    vm_compute in Hs. discriminate Hs.
Qed.

(** C7 (amended): two casts of direction [d] in a row return the voter to
    NONE with both counters unchanged when the voter starts in state NONE;
    from state [d] they return to state [d] with both counters unchanged;
    from the opposite state they end in NONE, the counter of [d] unchanged
    and the opposite counter one lower. *)
Theorem C7_double_cast g k db id r d :
  auth_key g = Some k →
  resource_table db !! id = Some r →
  let s := ledger_state db (apikey k) id in
  ∃ r2,
    resource_table (cast_twice g id d db) !! id = Some r2
    ∧ (s = NONE →
       ledger_state (cast_twice g id d db) (apikey k) id = NONE
       ∧ upvotes r2 = upvotes r ∧ downvotes r2 = downvotes r)
    ∧ (s = state_of d →
       ledger_state (cast_twice g id d db) (apikey k) id = state_of d
       ∧ upvotes r2 = upvotes r ∧ downvotes r2 = downvotes r)
    ∧ (s = state_of (opposite d) →
       ledger_state (cast_twice g id d db) (apikey k) id = NONE
       ∧ upvotes r2 + downvotes r2 = upvotes r + downvotes r - 1
       ∧ match d with
         | Upvote => upvotes r2 = upvotes r
         | Downvote => downvotes r2 = downvotes r
         end).
Proof.
  intros Hk Hr s.
  destruct (cast_twice_run g k db id r d Hk Hr) as (Hs & r2 & Hr2 & Hu & Hd).
  fold s in Hs, Hu, Hd. exists r2. split; [done|].
  rewrite Hs, Hu, Hd. clearbody s.
  split; [|split]; intros ->; destruct d; cbn; repeat split; lia.
Qed.

Lemma C7_witness :
  ∃ r2,
    resource_table (cast_twice voter_A 1 Downvote scenario_db) !! 1 = Some r2
    ∧ (NONE = NONE →
       ledger_state (cast_twice voter_A 1 Downvote scenario_db) "A" 1 = NONE
       ∧ upvotes r2 = 0 ∧ downvotes r2 = 0)
    ∧ (NONE = DOWNVOTED →
       ledger_state (cast_twice voter_A 1 Downvote scenario_db) "A" 1
       = DOWNVOTED
       ∧ upvotes r2 = 0 ∧ downvotes r2 = 0)
    ∧ (NONE = UPVOTED →
       ledger_state (cast_twice voter_A 1 Downvote scenario_db) "A" 1 = NONE
       ∧ upvotes r2 + downvotes r2 = 0 + 0 - 1
       ∧ downvotes r2 = 0).
Proof.
  exact (C7_double_cast voter_A (mkKey "A") scenario_db 1 Foo Downvote
           eq_refl eq_refl).
Defined.

(** ** Invalid vote directions *)

(** C9: a vote request whose direction is neither ["upvote"] nor
    ["downvote"] is answered with a redirect to [/404] and never reaches
    [update_votes]: the session, the datastore (counters and ledger rows) and
    the index calls are exactly as before. *)
Theorem C9_invalid_direction_redirects g id vote_direction st :
  vote_direction ≠ "upvote" →
  vote_direction ≠ "downvote" →
  change_votes g id vote_direction st = (inr (redirect "/404"), st).
Proof.
  intros Hu Hd. unfold change_votes.
  rewrite decide_False; [done|]. set_solver.
Qed.

Lemma C9_witness :
  change_votes voter_A 1 "Upvote" (mkState scenario_db scenario_db [])
  = (inr (redirect "/404"), mkState scenario_db scenario_db []).
Proof.
  apply (C9_invalid_direction_redirects voter_A 1 "Upvote");
    intros H; discriminate H.
Defined.

(** ** Clicks *)

Lemma add_click_run g id db calls r :
  resource_table db !! id = Some r →
  add_click g id (mkState db db calls)
  = (inr (standardize_response
            (ResourceData (clicked 1 r) (apikey <$> auth_key g)) None),
     mkState (put_resource_row id (clicked 1 r) db)
       (put_resource_row id (clicked 1 r) db) calls).
Proof.
  intros Hr. unfold add_click. unfold_handler. rewrite Hr.
  decide_literals. unfold with_counter. decide_literals. reflexivity.
Qed.

Lemma clicks_run callers : ∀ id db calls r,
  resource_table db !! id = Some r →
  clicks callers id (mkState db db calls)
  = mkState
      (put_resource_row id (clicked (Z.of_nat (length callers)) r) db)
      (put_resource_row id (clicked (Z.of_nat (length callers)) r) db) calls.
Proof.
  induction callers as [|g callers IH]; intros id db calls r Hr.
  - cbn. assert (Hdb : put_resource_row id (clicked (Z.of_nat 0) r) db = db).
    { unfold put_resource_row, clicked. destruct db, r. cbn in *.
      rewrite Z.add_0_r. by rewrite insert_id. }
    by rewrite Hdb.
  - cbn [clicks foldl]. unfold update_resource_click.
    rewrite (add_click_run g id db calls r Hr). cbn [snd].
    change (foldl _ ?st callers) with (clicks callers id st).
    rewrite (IH id _ calls (clicked 1 r)).
    + unfold put_resource_row, clicked. cbn. rewrite insert_insert_eq.
      replace (times_clicked r + 1 + Z.of_nat (length callers))
        with (times_clicked r + Z.pos (Pos.of_succ_nat (length callers)))
        by lia.
      reflexivity.
    + unfold put_resource_row. cbn. apply lookup_insert_eq.
Qed.

(** C8: on an existing resource, the clicks of any list of callers, with or
    without a key in [g], leave a datastore in which [times_clicked] of the
    resource has grown by the number of calls and every other field, every
    other resource and every other table is as before; the outcome depends on
    the number of callers only, and each single click answers with the
    resource, whoever calls. *)
Theorem C8_clicks_count callers id db calls r :
  resource_table db !! id = Some r →
  let N := Z.of_nat (length callers) in
  let db' := database (clicks callers id (mkState db db calls)) in
  resource_table db'
  = <[id := mkResource (name r) (url r) (free r) (notes r) (upvotes r)
              (downvotes r) (times_clicked r + N) (languages r)
              (category r)]> (resource_table db)
  ∧ language_table db' = language_table db
  ∧ category_table db' = category_table db
  ∧ vote_information_table db' = vote_information_table db
  ∧ key_table db' = key_table db
  ∧ (∀ callers', length callers' = length callers →
       clicks callers' id (mkState db db calls)
       = clicks callers id (mkState db db calls))
  ∧ (∀ g, ∃ r1,
       (update_resource_click g id (mkState db db calls)).1
       = inr (standardize_response
                (ResourceData r1 (apikey <$> auth_key g)) None)
       ∧ times_clicked r1 = times_clicked r + 1).
Proof.
  intros Hr N db'. subst db' N. rewrite (clicks_run callers id db calls r Hr).
  cbn [database]. repeat split; try reflexivity.
  - intros callers' Hlen.
    by rewrite (clicks_run callers' id db calls r Hr), Hlen.
  - intros g. unfold update_resource_click.
    rewrite (add_click_run g id db calls r Hr). by eexists.
Qed.

Lemma C8_witness :
  let db' := database (clicks [anonymous; voter_A; anonymous] 1
                         (mkState scenario_db scenario_db [])) in
  resource_table db'
  = <[1 := mkResource (VStr "Foo") (VStr "https://foo.example") true VNone
             0 0 (0 + 3) ["Python"] "Books"]>
      (resource_table scenario_db)
  ∧ language_table db' = language_table scenario_db
  ∧ category_table db' = category_table scenario_db
  ∧ vote_information_table db' = vote_information_table scenario_db
  ∧ key_table db' = key_table scenario_db
  ∧ (∀ callers', length callers' = 3%nat →
       clicks callers' 1 (mkState scenario_db scenario_db [])
       = clicks [anonymous; voter_A; anonymous] 1
           (mkState scenario_db scenario_db []))
  ∧ (∀ g, ∃ r1,
       (update_resource_click g 1 (mkState scenario_db scenario_db [])).1
       = inr (standardize_response
                (ResourceData r1 (apikey <$> auth_key g)) None)
       ∧ times_clicked r1 = 0 + 1).
Proof.
  exact (C8_clicks_count [anonymous; voter_A; anonymous] 1 scenario_db []
           Foo eq_refl).
Defined.

(** ** Counters and ledger agree *)

Lemma size_filter_insert {A} (P : (string * Z) * A → Prop)
    `{∀ x, Decision (P x)} (m : gmap (string * Z) A) i x :
  Z.of_nat (size (filter P (<[i := x]> m)))
  = Z.of_nat (size (filter P m)) + indicator (P (i, x))
    - match m !! i with Some y => indicator (P (i, y)) | None => 0 end.
Proof.
  unfold indicator. rewrite map_filter_insert.
  destruct (decide (P (i, x))) as [Hx|Hx].
  - rewrite map_size_insert.
    destruct (m !! i) as [y|] eqn:Hi.
    + destruct (decide (P (i, y))) as [Hy|Hy].
      * rewrite (map_lookup_filter_Some_2 P m i y Hi Hy). cbn. lia.
      * assert (filter P m !! i = None) as ->.
        { apply map_lookup_filter_None. right. intros y' Hy'.
          by simplify_eq. }
        lia.
    + assert (filter P m !! i = None) as ->.
      { apply map_lookup_filter_None. by left. }
      lia.
  - rewrite map_filter_delete, map_size_delete.
    destruct (m !! i) as [y|] eqn:Hi.
    + destruct (decide (P (i, y))) as [Hy|Hy].
      * rewrite (map_lookup_filter_Some_2 P m i y Hi Hy).
        assert (size (filter P m) ≠ 0%nat).
        { apply map_size_ne_0_lookup. exists i.
          by rewrite (map_lookup_filter_Some_2 P m i y Hi Hy). }
        lia.
      * assert (filter P m !! i = None) as ->.
        { apply map_lookup_filter_None. right. intros y' Hy'.
          by simplify_eq. }
        cbn. lia.
    + assert (filter P m !! i = None) as ->.
      { apply map_lookup_filter_None. by left. }
      cbn. lia.
Qed.

Lemma cast_db_counters_match api_key id d r db :
  resource_table db !! id = Some r →
  counters_match_ledger db →
  counters_match_ledger (cast_db api_key id d r db).
Proof.
  intros Hr Hinv rid r'. unfold cast_db, count_direction.
  cbn [resource_table vote_information_table].
  rewrite !size_filter_insert.
  destruct (decide (rid = id)) as [->|Hne].
  - rewrite lookup_insert_eq. intros [= <-].
    destruct (Hinv id r Hr) as [Hu Hd]. unfold count_direction in Hu, Hd.
    unfold cast_resource, cast_row. cbn [upvotes downvotes current_direction].
    rewrite <- Hu, <- Hd. unfold counts_toward, indicator. cbn [fst snd].
    destruct (vote_information_table db !! (api_key, id)) as [[cd vt]|];
      cbn [row_state current_direction fst snd];
      [destruct cd as [s|];
       [destruct (decide (s = "upvote")) as [->|Hsu];
        [|destruct (decide (s = "downvote")) as [->|Hsd]]|]|].
    all: rewrite ?direction_state_upvote, ?direction_state_downvote,
           ?(direction_state_other s) by done.
    all: cbn [direction_state].
    all: destruct d; cbn [cast_table state_direction fst snd].
    all: repeat case_decide; try lia; exfalso; naive_solver.
  - rewrite lookup_insert_ne by done. intros Hr'.
    destruct (Hinv rid r' Hr') as [Hu Hd]. unfold count_direction in Hu, Hd.
    rewrite Hu, Hd. unfold counts_toward, indicator. cbn [fst snd].
    destruct (vote_information_table db !! (api_key, id)) as [row|];
      repeat case_decide; try lia; exfalso; naive_solver.
Qed.

Lemma change_votes_database g id vote_direction db calls :
  let db' :=
    database (change_votes g id vote_direction (mkState db db calls)).2 in
  db' = db
  ∨ ∃ k r d, resource_table db !! id = Some r ∧ db' = cast_db k id d r db.
Proof.
  cbv zeta. unfold change_votes.
  destruct (decide (vote_direction ∈ ["upvote"; "downvote"])) as [Hin|Hin];
    [|by left].
  assert (∃ d, vote_direction = direction_name d) as [d ->].
  { apply elem_of_cons in Hin as [->|Hin]; [by exists Upvote|].
    apply elem_of_cons in Hin as [->|Hin]; [by exists Downvote|].
    by apply elem_of_nil in Hin. }
  destruct (resource_table db !! id) as [r|] eqn:Hr.
  - destruct (auth_key g) as [k|] eqn:Hk.
    + right. exists (apikey k), r, d. split; [done|].
      pose proof (change_votes_run g k db calls id r d Hk Hr) as Hrun.
      unfold change_votes in Hrun.
      rewrite decide_True in Hrun by (destruct d; set_solver).
      by rewrite Hrun.
    + left. rewrite vote_attribute. unfold update_votes.
      destruct d; vote_step; rewrite Hr; vote_step; rewrite Hk; done.
  - left. unfold update_votes. unfold_handler. by rewrite Hr.
Qed.

Lemma replaced_row_counters_match id r r' db db' :
  resource_table db !! id = Some r →
  upvotes r' = upvotes r →
  downvotes r' = downvotes r →
  vote_information_table db' = vote_information_table db →
  resource_table db' = <[id := r']> (resource_table db) →
  counters_match_ledger db →
  counters_match_ledger db'.
Proof.
  intros Hr Hu Hd HV HT Hinv rid x. rewrite HT, HV.
  destruct (decide (rid = id)) as [->|Hne].
  - rewrite lookup_insert_eq. intros [= <-]. rewrite Hu, Hd.
    by apply (Hinv id r).
  - rewrite lookup_insert_ne by done. apply Hinv.
Qed.

Lemma upvotes_staged_resource json langs categ fr r :
  upvotes (staged_resource json langs categ fr r) = upvotes r.
Proof.
  unfold staged_resource, staged_head, step_if. by repeat case_match.
Qed.

Lemma downvotes_staged_resource json langs categ fr r :
  downvotes (staged_resource json langs categ fr r) = downvotes r.
Proof.
  unfold staged_resource, staged_head, step_if. by repeat case_match.
Qed.

Section Operations.

Variable get_attributes : Dict → list string * string.
Variable ensure_bool : value → option bool.
Variable serialize_languages : Resource → string → value.
Variable environ : gmap string string.
Variable index_outcome : Dict → option exn.

(** What a call of [update_resource] leaves in the datastore: nothing new,
    or the staged session. *)
Lemma update_resource_database g id json db calls :
  let db' :=
    database
      (update_resource get_attributes ensure_bool serialize_languages
         environ index_outcome g id json (mkState db db calls)).2 in
  db' = db
  ∨ ∃ r fr,
      resource_table db !! id = Some r
      ∧ staged_free ensure_bool json r = Some fr
      ∧ db' = staged_session id json (get_attributes json).1
                (get_attributes json).2
                (staged_resource json (get_attributes json).1
                   (get_attributes json).2 fr r) r db.
Proof.
  cbv zeta.
  destruct (auth_key g) as [k|] eqn:Hk.
  - destruct (resource_table db !! id) as [r|] eqn:Hr.
    + destruct (get_attributes json) as [langs categ] eqn:Hga.
      rewrite (update_resource_run get_attributes ensure_bool
                 serialize_languages environ index_outcome g k id json db
                 db calls r langs categ Hk Hr Hga).
      destruct (staged_free ensure_bool json r) as [fr|] eqn:Hfr;
        [|by left].
      cbv zeta.
      destruct (index_outcome _) as [e|];
        [destruct (is_algolia_exception e);
         [destruct (decide (environ !! "FLASK_ENV" ≠ Some "development"))|]
        |]; cbn [snd database]; first [by left | right; by exists r, fr].
    + left. unfold update_resource. unfold_handler. by rewrite Hr, Hk.
  - left. unfold update_resource. unfold_handler. rewrite Hk.
    by destruct (resource_table db !! id).
Qed.

(** C2: every request served by this module (a vote in any direction
    string, a resource update with any document, a click), whoever sends
    it and whatever the index answers, leaves a datastore in which each
    resource's [upvotes] and [downvotes] equal the numbers of its ledger
    rows with direction upvote and downvote, provided the datastore it
    started from did; and no ledger row counts toward both counters. *)
Theorem C2_counters_match_ledger_preserved g op db calls :
  counters_match_ledger db →
  let db' :=
    database
      (perform get_attributes ensure_bool serialize_languages environ
         index_outcome g op (mkState db db calls)).2 in
  counters_match_ledger db'
  ∧ ∀ voter id row,
      vote_information_table db' !! (voter, id) = Some row →
      ¬ (counts_toward id "upvote" ((voter, id), row)
         ∧ counts_toward id "downvote" ((voter, id), row)).
Proof.
  intros Hinv db'. split.
  - subst db'. destruct op as [id dir|id json|id]; cbn [perform].
    + destruct (change_votes_database g id dir db calls)
        as [->|(k & r & d & Hr & ->)]; [done|].
      by apply cast_db_counters_match.
    + destruct (update_resource_database g id json db calls)
        as [->|(r & fr & Hr & Hfr & ->)]; [done|].
      eapply (replaced_row_counters_match id r); [done| | | | |done].
      * apply upvotes_staged_resource.
      * apply downvotes_staged_resource.
      * reflexivity.
      * reflexivity.
    + unfold update_resource_click.
      destruct (resource_table db !! id) as [r|] eqn:Hr.
      * rewrite (add_click_run g id db calls r Hr). cbn [snd database].
        by apply (replaced_row_counters_match id r (clicked 1 r) db).
      * unfold add_click. unfold_handler. by rewrite Hr.
  - intros voter id row _ [[_ Hu] [_ Hd]]. cbn in Hu, Hd. congruence.
Qed.

End Operations.

(** ** Selection rules, tags in use and the patch *)

(** Settles every [decide] of membership of a literal in a literal list. *)
Ltac decide_members :=
  repeat match goal with
  | |- context [decide (?a ∈ ?l)] =>
      first [ rewrite (decide_True (P := a ∈ l))
                by (apply (bool_decide_unpack (a ∈ l)); by vm_compute)
            | rewrite (decide_False (P := a ∈ l))
                by (apply (bool_decide_unpack (a ∉ l)); by vm_compute) ]
  end.

Lemma selects_languages json :
  selects json "languages" = is_not_None (dict_get json "languages").
Proof.
  unfold selects, present_not_null, dict_get. decide_literals.
  by destruct (json !! "languages") as [[]|].
Qed.

Lemma selects_truthy json field :
  field ∈ ["category"; "name"; "url"] →
  selects json field = truthy (dict_get json field).
Proof.
  intros Hin. unfold selects, present_truthy, dict_get.
  repeat (apply elem_of_cons in Hin as [->|Hin]);
    [| | |by apply elem_of_nil in Hin].
  all: decide_literals; decide_members.
  all: by match goal with |- context [?m !! ?f] => destruct (m !! f) end.
Qed.

Lemma selects_present json field :
  field ∈ ["free"; "notes"] →
  selects json field = dict_contains json field.
Proof.
  intros Hin. unfold selects, present, dict_contains.
  repeat (apply elem_of_cons in Hin as [->|Hin]);
    [| |by apply elem_of_nil in Hin].
  all: decide_literals; decide_members.
  all: match goal with |- context [?m !! ?f] => destruct (m !! f) end.
  all: symmetry;
    first [ by apply bool_decide_eq_true_2
          | apply bool_decide_eq_false_2, is_Some_None ].
Qed.

Lemma selects_category json :
  selects json "category" = truthy (dict_get json "category").
Proof. apply selects_truthy. set_solver. Qed.

Lemma selects_name json :
  selects json "name" = truthy (dict_get json "name").
Proof. apply selects_truthy. set_solver. Qed.

Lemma selects_url json : selects json "url" = truthy (dict_get json "url").
Proof. apply selects_truthy. set_solver. Qed.

Lemma selects_free json : selects json "free" = dict_contains json "free".
Proof. apply selects_present. set_solver. Qed.

Lemma selects_notes json : selects json "notes" = dict_contains json "notes".
Proof. apply selects_present. set_solver. Qed.

Lemma selects_field json field :
  selects json field = true →
  field ∈ ["languages"; "category"; "name"; "url"; "free"; "notes"].
Proof.
  unfold selects. repeat case_decide; try done; set_solver.
Qed.

Lemma elem_of_languages_in_use tbl language :
  language ∈ languages_in_use tbl
  ↔ ∃ id r, tbl !! id = Some r ∧ language ∈ languages r.
Proof.
  unfold languages_in_use.
  rewrite elem_of_list_to_set, list_elem_of_In, in_concat. split.
  - intros (l & Hl & Hin). apply list_elem_of_In, list_elem_of_fmap in Hl.
    destruct Hl as (r & -> & Hr). apply list_elem_of_fmap in Hr.
    destruct Hr as ([id r'] & -> & Hr). apply elem_of_map_to_list in Hr.
    exists id, r'. split; [done|]. by apply list_elem_of_In.
  - intros (id & r & Hr & Hin). exists (languages r). split.
    + apply list_elem_of_In, list_elem_of_fmap. exists r. split; [done|].
      apply list_elem_of_fmap. exists (id, r). split; [done|].
      by apply elem_of_map_to_list.
    + by apply list_elem_of_In.
Qed.

Lemma elem_of_categories_in_use tbl categ :
  categ ∈ categories_in_use tbl ↔ ∃ id r, tbl !! id = Some r ∧ category r = categ.
Proof.
  unfold categories_in_use. rewrite elem_of_list_to_set, list_elem_of_fmap.
  split.
  - intros (r & -> & Hr). apply list_elem_of_fmap in Hr.
    destruct Hr as ([id r'] & -> & Hr). apply elem_of_map_to_list in Hr.
    by exists id, r'.
  - intros (id & r & Hr & <-). exists r. split; [done|].
    apply list_elem_of_fmap. exists (id, r). split; [done|].
    by apply elem_of_map_to_list.
Qed.

Lemma languages_in_use_insert id r1 r2 tbl :
  languages r1 = languages r2 →
  languages_in_use (<[id := r1]> tbl) = languages_in_use (<[id := r2]> tbl).
Proof.
  intros Heq. apply set_eq. intros language.
  rewrite !elem_of_languages_in_use.
  split; intros (rid & r & Hr & Hin);
    (destruct (decide (rid = id)) as [->|Hne];
     [rewrite lookup_insert_eq in Hr; injection Hr as <-;
      eexists id, _; rewrite lookup_insert_eq; split; [done|]; congruence
     |rewrite lookup_insert_ne in Hr by done;
      exists rid, r; by rewrite lookup_insert_ne by done]).
Qed.

Lemma categories_in_use_insert id r1 r2 tbl :
  category r1 = category r2 →
  categories_in_use (<[id := r1]> tbl) = categories_in_use (<[id := r2]> tbl).
Proof.
  intros Heq. apply set_eq. intros categ.
  rewrite !elem_of_categories_in_use.
  split; intros (rid & r & Hr & Hin);
    (destruct (decide (rid = id)) as [->|Hne];
     [rewrite lookup_insert_eq in Hr; injection Hr as <-;
      eexists id, _; rewrite lookup_insert_eq; split; [done|]; congruence
     |rewrite lookup_insert_ne in Hr by done;
      exists rid, r; by rewrite lookup_insert_ne by done]).
Qed.

(** The fields of the staged resource, one by one. *)
Lemma staged_resource_fields json langs categ fr r :
  let r' := staged_resource json langs categ fr r in
  languages r' = (if selects json "languages" then langs else languages r)
  ∧ category r' = (if selects json "category" then categ else category r)
  ∧ name r' = (if selects json "name" then dict_get json "name" else name r)
  ∧ url r' = (if selects json "url" then dict_get json "url" else url r)
  ∧ free r' = (if selects json "free" then fr else free r)
  ∧ notes r'
    = (if selects json "notes" then dict_get json "notes" else notes r)
  ∧ upvotes r' = upvotes r
  ∧ downvotes r' = downvotes r
  ∧ times_clicked r' = times_clicked r.
Proof.
  cbv zeta.
  rewrite selects_languages, selects_category, selects_name, selects_url,
    selects_free, selects_notes.
  unfold staged_resource, staged_head, step_if.
  by repeat case_match.
Qed.

Lemma lookup_step_if_insert (b : bool) (key : string) (x : value)
    (m : Dict) (field : string) :
  step_if b (insert key x) m !! field
  = if decide (key = field) then (if b then Some x else m !! field)
    else m !! field.
Proof.
  destruct b; cbn [step_if]; [apply lookup_insert|by case_decide].
Qed.

(** The keys of the patch: the identity and the selected fields. *)
Lemma staged_index_object_keys id json entry categ fr field :
  field ≠ "objectID" →
  is_Some (staged_index_object id json entry categ fr !! field)
  ↔ selects json field = true.
Proof.
  intros Hid. unfold staged_index_object.
  destruct (decide (field ∈ ["languages"; "category"; "name"; "url"; "free";
                            "notes"])) as [Hin|Hout].
  - repeat (apply elem_of_cons in Hin as [->|Hin]);
      [| | | | | |by apply elem_of_nil in Hin].
    all: repeat (rewrite lookup_step_if_insert; decide_literals).
    all: rewrite ?lookup_singleton_ne by done.
    all: rewrite ?selects_languages, ?selects_category, ?selects_name,
           ?selects_url, ?selects_free, ?selects_notes.
    all: repeat match goal with
         | |- context [if ?b then _ else _] => destruct b
         end.
    all: split; intros H; first [ done | by eexists | by destruct H ].
  - repeat (rewrite lookup_step_if_insert,
              decide_False by (intros <-; apply Hout; set_solver)).
    rewrite lookup_singleton_ne by done.
    split; [by intros [? ?]|].
    intros Hsel. destruct (Hout (selects_field json field Hsel)).
Qed.

Lemma staged_index_object_id id json entry categ fr :
  staged_index_object id json entry categ fr !! "objectID" = Some (VInt id).
Proof.
  unfold staged_index_object.
  repeat (rewrite lookup_step_if_insert; decide_literals).
  apply lookup_singleton_eq.
Qed.

Lemma dict_get_singleton key v : dict_get {[key := v]} key = v.
Proof. unfold dict_get. by rewrite lookup_singleton_eq. Qed.

Lemma dict_get_singleton_ne key key' v :
  key ≠ key' → dict_get {[key := v]} key' = VNone.
Proof. intros Hne. unfold dict_get. by rewrite lookup_singleton_ne. Qed.

Lemma dict_contains_singleton_ne key key' v :
  key ≠ key' → dict_contains {[key := v]} key' = false.
Proof.
  intros Hne. unfold dict_contains. rewrite lookup_singleton_ne by done.
  apply bool_decide_eq_false_2, is_Some_None.
Qed.

Lemma elem_of_languages_in_use_insert id r1 tbl x :
  x ∈ languages_in_use (<[id := r1]> tbl)
  ↔ x ∈ languages r1
    ∨ ∃ rid r2, rid ≠ id ∧ tbl !! rid = Some r2 ∧ x ∈ languages r2.
Proof.
  rewrite elem_of_languages_in_use. split.
  - intros (rid & r2 & Hr2 & Hin).
    destruct (decide (rid = id)) as [->|Hne].
    + rewrite lookup_insert_eq in Hr2. injection Hr2 as <-. by left.
    + rewrite lookup_insert_ne in Hr2 by done. right. by exists rid, r2.
  - intros [Hin|(rid & r2 & Hne & Hr2 & Hin)].
    + exists id, r1. by rewrite lookup_insert_eq.
    + exists rid, r2. by rewrite lookup_insert_ne.
Qed.

Lemma elem_of_categories_in_use_insert id r1 tbl x :
  x ∈ categories_in_use (<[id := r1]> tbl)
  ↔ x = category r1
    ∨ ∃ rid r2, rid ≠ id ∧ tbl !! rid = Some r2 ∧ category r2 = x.
Proof.
  rewrite elem_of_categories_in_use. split.
  - intros (rid & r2 & Hr2 & Hin).
    destruct (decide (rid = id)) as [->|Hne].
    + rewrite lookup_insert_eq in Hr2. injection Hr2 as <-. by left.
    + rewrite lookup_insert_ne in Hr2 by done. right. by exists rid, r2.
  - intros [->|(rid & r2 & Hne & Hr2 & Hin)].
    + exists id, r1. by rewrite lookup_insert_eq.
    + exists rid, r2. by rewrite lookup_insert_ne.
Qed.

Section UpdateResourceClaims.

Variable get_attributes : Dict → list string * string.
Variable ensure_bool : value → option bool.
Variable serialize_languages : Resource → string → value.
Variable environ : gmap string string.
Variable index_outcome : Dict → option exn.

Abbreviation update :=
  (update_resource get_attributes ensure_bool serialize_languages environ
     index_outcome).

(** A call that answers with the resource has staged every step, reached
    the index and committed the staged session. *)
Lemma update_resource_success g id json db calls r r' key :
  resource_table db !! id = Some r →
  (update g id json (mkState db db calls)).1
  = inr (standardize_response (ResourceData r' key) None) →
  ∃ k fr,
    auth_key g = Some k
    ∧ key = Some (apikey k)
    ∧ staged_free ensure_bool json r = Some fr
    ∧ r' = staged_resource json (get_attributes json).1
             (get_attributes json).2 fr r
    ∧ database (update g id json (mkState db db calls)).2
      = staged_session id json (get_attributes json).1
          (get_attributes json).2 r' r db.
Proof.
  intros Hr. destruct (auth_key g) as [k|] eqn:Hk.
  - destruct (get_attributes json) as [langs categ] eqn:Hga.
    rewrite (update_resource_run get_attributes ensure_bool
               serialize_languages environ index_outcome g k id json db
               db calls r langs categ Hk Hr Hga).
    destruct (staged_free ensure_bool json r) as [fr|] eqn:Hfr;
      [|discriminate].
    cbv zeta.
    destruct (index_outcome _) as [e|];
      [destruct (is_algolia_exception e);
       [destruct (decide (environ !! "FLASK_ENV" ≠ Some "development"))|]
      |]; cbn [fst snd database]; intros [= <- <-] || discriminate.
    all: by exists k, fr.
  - unfold update_resource. unfold_handler. rewrite Hk.
    destruct (resource_table db !! id); discriminate.
Qed.

(** C3: when a call of [update_resource] answers with the updated
    resource, the datastore holds that resource in the place of the old
    one.  For a document that replaces the languages, the stored resource
    has the languages of the document, and for every language the resource
    had before: some resource refers to it afterwards exactly when the
    document lists it or another resource had it; it is absent from the
    datastore afterwards if the document does not list it and no other
    resource had it (so if no resource refers to it any more); it is still
    present if the document lists it, or if another resource had it (so if
    some resource refers to it) and it was present before.  Likewise the
    old category for a document that replaces the category. *)
Theorem C3_orphan_tags_deleted g id json db calls r r' key :
  resource_table db !! id = Some r →
  (update g id json (mkState db db calls)).1
  = inr (standardize_response (ResourceData r' key) None) →
  let db' := database (update g id json (mkState db db calls)).2 in
  let used_elsewhere language :=
    ∃ rid r2, rid ≠ id ∧ resource_table db !! rid = Some r2
              ∧ language ∈ languages r2 in
  let category_used_elsewhere categ :=
    ∃ rid r2, rid ≠ id ∧ resource_table db !! rid = Some r2
              ∧ category r2 = categ in
  resource_table db' = <[id := r']> (resource_table db)
  ∧ (selects json "languages" = true →
     languages r' = (get_attributes json).1
     ∧ ∀ language, language ∈ languages r →
         (language_referenced db' language
          ↔ language ∈ (get_attributes json).1 ∨ used_elsewhere language)
         ∧ (language ∉ (get_attributes json).1 →
            ¬ used_elsewhere language →
            language ∉ language_table db')
         ∧ (language ∈ (get_attributes json).1 →
            language ∈ language_table db')
         ∧ (used_elsewhere language →
            language ∈ language_table db → language ∈ language_table db')
         ∧ (¬ language_referenced db' language →
            language ∉ language_table db')
         ∧ (language_referenced db' language →
            language ∈ language_table db → language ∈ language_table db'))
  ∧ (selects json "category" = true →
     category r' = (get_attributes json).2
     ∧ (category_referenced db' (category r)
        ↔ category r = (get_attributes json).2
          ∨ category_used_elsewhere (category r))
     ∧ (category r ≠ (get_attributes json).2 →
        ¬ category_used_elsewhere (category r) →
        category r ∉ category_table db')
     ∧ (category r = (get_attributes json).2 →
        category r ∈ category_table db')
     ∧ (category_used_elsewhere (category r) →
        category r ∈ category_table db →
        category r ∈ category_table db')
     ∧ (¬ category_referenced db' (category r) →
        category r ∉ category_table db')
     ∧ (category_referenced db' (category r) →
        category r ∈ category_table db →
        category r ∈ category_table db')).
Proof.
  intros Hr Hok db' used_elsewhere category_used_elsewhere.
  destruct (update_resource_success g id json db calls r r' key Hr Hok)
    as (k & fr & Hk & -> & Hfr & Hr' & Hdb).
  subst db'. rewrite Hdb. clear Hdb Hok.
  set (langs := (get_attributes json).1) in *.
  set (categ := (get_attributes json).2) in *.
  destruct (staged_resource_fields json langs categ fr r)
    as (Hl & Hc & _). rewrite <- Hr' in Hl, Hc.
  unfold language_referenced, category_referenced, staged_session,
    staged_language_table, staged_category_table.
  cbn [resource_table language_table category_table].
  rewrite <- selects_languages, <- selects_category.
  split; [done|]. split.
  - intros Hsel. rewrite Hsel in Hl |- *. split; [done|].
    intros language Hin. unfold step_if.
    rewrite <- elem_of_languages_in_use.
    rewrite (languages_in_use_insert id r' (with_languages langs r))
      by done.
    assert (HU : language ∈ languages_in_use
                              (<[id := with_languages langs r]>
                                 (resource_table db))
                 ↔ language ∈ langs ∨ used_elsewhere language)
      by apply elem_of_languages_in_use_insert.
    set (U := languages_in_use _) in *. clearbody U.
    rewrite !elem_of_difference, elem_of_union, !elem_of_list_to_set.
    split_and!.
    + done.
    + intros Hn He [_ Hkeep]. apply Hkeep. split; [done|].
      rewrite HU. by intros [?|?].
    + intros Hnew. split; [by right|]. intros [_ Hn]. apply Hn, HU.
      by left.
    + intros He HLT. split; [by left|]. intros [_ Hn]. apply Hn, HU.
      by right.
    + intros Hn [_ Hkeep]. by apply Hkeep.
    + intros HinU HLT. split; [by left|]. by intros [_ Hn].
  - intros Hsel. rewrite Hsel in Hc |- *. split; [done|]. unfold step_if.
    rewrite <- elem_of_categories_in_use.
    set (r1 := if selects json "languages" then _ else _).
    rewrite (categories_in_use_insert id r' (with_category categ r1))
      by done.
    assert (HU : category r ∈ categories_in_use
                                (<[id := with_category categ r1]>
                                   (resource_table db))
                 ↔ category r = categ
                   ∨ category_used_elsewhere (category r))
      by apply elem_of_categories_in_use_insert.
    set (U := categories_in_use _) in *. clearbody U.
    rewrite !elem_of_difference, elem_of_union, !elem_of_singleton.
    split_and!.
    + done.
    + intros Hn He [_ Hkeep]. apply Hkeep. split; [done|].
      rewrite HU. by intros [?|?].
    + intros Hnew. split; [by right|]. intros [_ Hn]. apply Hn, HU.
      by left.
    + intros He HCT. split; [by left|]. intros [_ Hn]. apply Hn, HU.
      by right.
    + intros Hn [_ Hkeep]. by apply Hkeep.
    + intros HinU HCT. split; [by left|]. by intros [_ Hn].
Qed.

(** C5: a document that holds only [name], with a truthy value, makes
    [update_resource] send the patch with exactly [objectID] and [name];
    whatever the index answers, the stored resource keeps its [url],
    [free], [notes], [languages] and [category].  For every document, the
    patch holds [objectID] and, of the other keys, exactly the fields the
    document selects: a field the operation does not assign is absent. *)
Theorem C5_partial_update_isolation g k id db calls r v :
  auth_key g = Some k →
  resource_table db !! id = Some r →
  truthy v = true →
  let out := update g id {["name" := v]} (mkState db db calls) in
  index_calls out.2 = calls ++ [<["name" := v]> {["objectID" := VInt id]}]
  ∧ (∀ field,
       is_Some ((<["name" := v]> {["objectID" := VInt id]} : Dict)
                !! field)
       ↔ field = "objectID" ∨ field = "name")
  ∧ (∃ r',
       resource_table (database out.2) !! id = Some r'
       ∧ url r' = url r ∧ free r' = free r ∧ notes r' = notes r
       ∧ languages r' = languages r ∧ category r' = category r)
  ∧ (∀ json,
       (selects json "free" = true →
        is_Some (ensure_bool (dict_get json "free"))) →
       ∃ io,
         index_calls (update g id json (mkState db db calls)).2
         = calls ++ [io]
         ∧ io !! "objectID" = Some (VInt id)
         ∧ ∀ field, field ≠ "objectID" →
             (is_Some (io !! field) ↔ selects json field = true)).
Proof.
  intros Hk Hr Hv out. subst out.
  split; [|split; [|split]].
  - destruct (get_attributes {["name" := v]}) as [langs categ] eqn:Hga.
    rewrite (update_resource_run get_attributes ensure_bool
               serialize_languages environ index_outcome g k id _ db
               db calls r langs categ Hk Hr Hga).
    unfold staged_free, staged_index_object.
    rewrite dict_get_singleton, !dict_get_singleton_ne,
      !dict_contains_singleton_ne by done.
    rewrite Hv. cbn [truthy is_not_None step_if].
    destruct (index_outcome _) as [e|];
      [destruct (is_algolia_exception e);
       [destruct (decide (environ !! "FLASK_ENV" ≠ Some "development"))|]
      |]; reflexivity.
  - intros field. rewrite lookup_insert.
    destruct (decide ("name" = field)) as [<-|Hne].
    + split; [by right|by eexists].
    + destruct (decide ("objectID" = field)) as [<-|Hne'].
      * rewrite lookup_singleton_eq. split; [by left|by eexists].
      * rewrite lookup_singleton_ne by done.
        split; [by intros [? ?]|]. by intros [->| ->].
  - destruct (update_resource_database get_attributes ensure_bool
                serialize_languages environ index_outcome g id
                {["name" := v]} db calls)
      as [->|(r0 & fr & Hr0 & Hfr & ->)].
    + by exists r.
    + rewrite Hr in Hr0. injection Hr0 as <-.
      eexists. split; [apply lookup_insert_eq|].
      unfold staged_free in Hfr.
      rewrite dict_contains_singleton_ne in Hfr by done.
      injection Hfr as <-.
      unfold staged_resource, staged_head.
      rewrite dict_get_singleton, !dict_get_singleton_ne,
        !dict_contains_singleton_ne by done.
      rewrite Hv. cbn [truthy is_not_None step_if].
      done.
  - intros json Hfree.
    destruct (get_attributes json) as [langs categ] eqn:Hga.
    rewrite (update_resource_run get_attributes ensure_bool
               serialize_languages environ index_outcome g k id json db
               db calls r langs categ Hk Hr Hga).
    assert (∃ fr, staged_free ensure_bool json r = Some fr) as [fr ->].
    { unfold staged_free. rewrite <- selects_free.
      destruct (selects json "free"); [by apply Hfree|by eexists]. }
    cbv zeta. eexists. split; [|split].
    + destruct (index_outcome _) as [e|];
        [destruct (is_algolia_exception e);
         [destruct (decide (environ !! "FLASK_ENV" ≠ Some "development"))|]
        |]; reflexivity.
    + apply staged_index_object_id.
    + intros field Hfield. by apply staged_index_object_keys.
Qed.

(** C6: when a call of [update_resource] answers with the updated
    resource, the stored resource is the one in the answer and each of its
    fields follows the selection rule of that field: [languages] is the
    resolved list when the key is present and not null; [category],
    [name], [url] are the new values when the key is present and truthy;
    [free] is the coerced value and [notes] the given value whenever the
    key is present; every field that is not selected, and the three
    counters, keep their previous values. *)
Theorem C6_field_selection g id json db calls r r' key :
  resource_table db !! id = Some r →
  (update g id json (mkState db db calls)).1
  = inr (standardize_response (ResourceData r' key) None) →
  let db' := database (update g id json (mkState db db calls)).2 in
  resource_table db' !! id = Some r'
  ∧ languages r'
    = (if selects json "languages" then (get_attributes json).1
       else languages r)
  ∧ category r'
    = (if selects json "category" then (get_attributes json).2
       else category r)
  ∧ name r' = (if selects json "name" then dict_get json "name" else name r)
  ∧ url r' = (if selects json "url" then dict_get json "url" else url r)
  ∧ (if selects json "free"
     then ensure_bool (dict_get json "free") = Some (free r')
     else free r' = free r)
  ∧ notes r'
    = (if selects json "notes" then dict_get json "notes" else notes r)
  ∧ upvotes r' = upvotes r
  ∧ downvotes r' = downvotes r
  ∧ times_clicked r' = times_clicked r.
Proof.
  intros Hr Hok db'.
  destruct (update_resource_success g id json db calls r r' key Hr Hok)
    as (k & fr & Hk & -> & Hfr & Hr' & Hdb).
  subst db'. rewrite Hdb.
  destruct (staged_resource_fields json (get_attributes json).1
              (get_attributes json).2 fr r)
    as (Hl & Hc & Hn & Hu & Hf & Hnt & Hup & Hdn & Htc).
  rewrite <- Hr' in *.
  split; [apply lookup_insert_eq|].
  repeat split; try done.
  unfold staged_free in Hfr. rewrite <- selects_free in Hfr.
  destruct (selects json "free"); congruence.
Qed.

(** C10: for a document that selects no field, [update_resource] on an
    existing resource still calls the index, with the patch that holds
    only [objectID]; outside development mode, an index that raises one of
    its exceptions on that patch turns the call into a status-500 answer,
    and the datastore stays as it was. *)
Theorem C10_empty_update_still_synchronizes g k id json db calls r :
  auth_key g = Some k →
  resource_table db !! id = Some r →
  (∀ field, selects json field = false) →
  let out := update g id json (mkState db db calls) in
  index_calls out.2 = calls ++ [{["objectID" := VInt id]}]
  ∧ (environ !! "FLASK_ENV" ≠ Some "development" →
     ∀ e, index_outcome {["objectID" := VInt id]} = Some e →
          is_algolia_exception e = true →
          out.1 = inr (standardize_response (AlgoliaFailed (name r))
                         (Some 500))
          ∧ database out.2 = db).
Proof.
  intros Hk Hr Hnone out. subst out.
  destruct (get_attributes json) as [langs categ] eqn:Hga.
  rewrite (update_resource_run get_attributes ensure_bool
             serialize_languages environ index_outcome g k id json db
             db calls r langs categ Hk Hr Hga).
  unfold staged_free, staged_index_object, staged_resource, staged_head.
  rewrite <- selects_languages, <- selects_category, <- selects_name,
    <- selects_url, <- selects_free, <- selects_notes.
  rewrite !Hnone. cbn [step_if]. cbv zeta.
  split.
  - destruct (index_outcome _) as [e|];
      [destruct (is_algolia_exception e);
       [destruct (decide (environ !! "FLASK_ENV" ≠ Some "development"))|]
      |]; reflexivity.
  - intros Henv e -> ->. by rewrite decide_True by done.
Qed.

End UpdateResourceClaims.

(** C4: with the index raising one of its two exceptions on every patch, a
    call of [update_resource] on an existing resource answers, outside
    development mode, with status 500 and leaves the datastore as it was.
    In development mode its answer, the datastore it commits and the patch
    it sent are those of the same call with an index that accepts every
    patch; and, when [ensure_bool] accepts the value of [free] if the
    document has one, the call sends one patch, answers with the updated
    resource and no error status, and commits the session: the datastore
    holds the updated resource in the place of the old one, with every
    field the document selects taken from the document and the others as
    they were, and without the old languages and the old category that no
    resource refers to any more. *)
Theorem C4_sync_failure_policy get_attributes ensure_bool serialize_languages
    (strict dev : gmap string string) index_outcome g k id json db calls r :
  auth_key g = Some k →
  resource_table db !! id = Some r →
  (∀ io, ∃ e, index_outcome io = Some e ∧ is_algolia_exception e = true) →
  strict !! "FLASK_ENV" ≠ Some "development" →
  dev !! "FLASK_ENV" = Some "development" →
  (∃ payload,
     (update_resource get_attributes ensure_bool serialize_languages strict
        index_outcome g id json (mkState db db calls)).1
     = inr (standardize_response payload (Some 500))
     ∧ database
         (update_resource get_attributes ensure_bool serialize_languages
            strict index_outcome g id json (mkState db db calls)).2
       = db)
  ∧ update_resource get_attributes ensure_bool serialize_languages dev
      index_outcome g id json (mkState db db calls)
    = update_resource get_attributes ensure_bool serialize_languages dev
        (λ _, None) g id json (mkState db db calls)
  ∧ ((selects json "free" = true →
      is_Some (ensure_bool (dict_get json "free"))) →
     let out :=
       update_resource get_attributes ensure_bool serialize_languages dev
         index_outcome g id json (mkState db db calls) in
     ∃ r' io,
       out.1 = inr (standardize_response (ResourceData r' (Some (apikey k)))
                      None)
       ∧ index_calls out.2 = calls ++ [io]
       ∧ database out.2 = session out.2
       ∧ resource_table (database out.2) = <[id := r']> (resource_table db)
       ∧ languages r'
         = (if selects json "languages" then (get_attributes json).1
            else languages r)
       ∧ category r'
         = (if selects json "category" then (get_attributes json).2
            else category r)
       ∧ name r'
         = (if selects json "name" then dict_get json "name" else name r)
       ∧ url r' = (if selects json "url" then dict_get json "url" else url r)
       ∧ (if selects json "free"
          then ensure_bool (dict_get json "free") = Some (free r')
          else free r' = free r)
       ∧ notes r'
         = (if selects json "notes" then dict_get json "notes" else notes r)
       ∧ (selects json "languages" = true →
          ∀ language, language ∈ languages r →
            ¬ language_referenced (database out.2) language →
            language ∉ language_table (database out.2))
       ∧ (selects json "category" = true →
          ¬ category_referenced (database out.2) (category r) →
          category r ∉ category_table (database out.2))).
Proof.
  intros Hk Hr Hfail Hstrict Hdev.
  destruct (get_attributes json) as [langs categ] eqn:Hga.
  cbv zeta.
  rewrite !(update_resource_run get_attributes ensure_bool
              serialize_languages _ _ g k id json db
              db calls r langs categ Hk Hr Hga).
  destruct (staged_free ensure_bool json r) as [fr|] eqn:Hfr.
  - cbv zeta.
    destruct (Hfail (staged_index_object id json
                       (serialize_languages (with_languages langs r)
                          (apikey k)) categ fr)) as (e & -> & ->).
    rewrite decide_True by done.
    rewrite decide_False by (by intros []).
    split_and!; [by eexists|done|]. intros _.
    eexists _, _. cbn [fst snd index_calls database session].
    destruct (staged_resource_fields json langs categ fr r)
      as (Hl & Hc & Hn & Hu & Hf & Hnotes & _).
    split_and!; try done.
    + unfold staged_free in Hfr. rewrite <- selects_free in Hfr.
      rewrite Hf. destruct (selects json "free"); [done|].
      by injection Hfr as <-.
    + intros Hsel language Hin.
      unfold language_referenced, staged_session, staged_language_table.
      cbn [resource_table language_table].
      rewrite <- selects_languages, Hsel. unfold step_if.
      rewrite <- elem_of_languages_in_use.
      rewrite (languages_in_use_insert id _ (with_languages langs r))
        by (by rewrite Hl, Hsel).
      rewrite !elem_of_difference, elem_of_list_to_set.
      intros HU [_ Hn']. by apply Hn'.
    + intros Hsel.
      unfold category_referenced, staged_session, staged_category_table.
      cbn [resource_table category_table].
      rewrite <- selects_languages, <- selects_category, Hsel.
      unfold step_if.
      rewrite <- elem_of_categories_in_use.
      rewrite (categories_in_use_insert id _
                 (with_category categ
                    (if selects json "languages"
                     then with_languages langs r else r)))
        by (by rewrite Hc, Hsel).
      rewrite !elem_of_difference, elem_of_singleton.
      intros HU [_ Hn']. by apply Hn'.
  - split_and!; [by eexists|done|]. intros Hguard. exfalso.
    unfold staged_free in Hfr. rewrite <- selects_free in Hfr.
    destruct (selects json "free"); [|done].
    destruct Hguard as [b Hb]; [done|]. congruence.
Qed.

(** ** At concrete inputs *)

Lemma C2_witness :
  let db' :=
    database
      (perform sample_get_attributes sample_ensure_bool
         sample_serialize_languages production index_up voter_A
         (VoteCast 1 "downvote")
         (mkState scenario_upvoted scenario_upvoted [])).2 in
  counters_match_ledger db'
  ∧ ∀ voter id row,
      vote_information_table db' !! (voter, id) = Some row →
      ¬ (counts_toward id "upvote" ((voter, id), row)
         ∧ counts_toward id "downvote" ((voter, id), row)).
Proof.
  apply (C2_counters_match_ledger_preserved sample_get_attributes
           sample_ensure_bool sample_serialize_languages production index_up
           voter_A (VoteCast 1 "downvote") scenario_upvoted []).
  apply (bool_decide_unpack (counters_match_ledger scenario_upvoted)).
  vm_compute. reflexivity.
Defined.

Lemma C3_witness :
  let db' :=
    database (sample_update production index_up voter_A 2 retag
                (mkState scenario_db scenario_db [])).2 in
  let used_elsewhere language :=
    ∃ rid r2, rid ≠ 2 ∧ resource_table scenario_db !! rid = Some r2
              ∧ language ∈ languages r2 in
  let category_used_elsewhere categ :=
    ∃ rid r2, rid ≠ 2 ∧ resource_table scenario_db !! rid = Some r2
              ∧ category r2 = categ in
  resource_table db' = <[2 := Bar_retagged]> (resource_table scenario_db)
  ∧ (selects retag "languages" = true →
     languages Bar_retagged = ["Rust"]
     ∧ ∀ language, language ∈ languages Bar →
         (language_referenced db' language
          ↔ language ∈ ["Rust"] ∨ used_elsewhere language)
         ∧ (language ∉ ["Rust"] →
            ¬ used_elsewhere language →
            language ∉ language_table db')
         ∧ (language ∈ ["Rust"] → language ∈ language_table db')
         ∧ (used_elsewhere language →
            language ∈ language_table scenario_db →
            language ∈ language_table db')
         ∧ (¬ language_referenced db' language →
            language ∉ language_table db')
         ∧ (language_referenced db' language →
            language ∈ language_table scenario_db →
            language ∈ language_table db'))
  ∧ (selects retag "category" = true →
     category Bar_retagged = "Books"
     ∧ (category_referenced db' (category Bar)
        ↔ category Bar = "Books" ∨ category_used_elsewhere (category Bar))
     ∧ (category Bar ≠ "Books" →
        ¬ category_used_elsewhere (category Bar) →
        category Bar ∉ category_table db')
     ∧ (category Bar = "Books" → category Bar ∈ category_table db')
     ∧ (category_used_elsewhere (category Bar) →
        category Bar ∈ category_table scenario_db →
        category Bar ∈ category_table db')
     ∧ (¬ category_referenced db' (category Bar) →
        category Bar ∉ category_table db')
     ∧ (category_referenced db' (category Bar) →
        category Bar ∈ category_table scenario_db →
        category Bar ∈ category_table db')).
Proof.
  apply (C3_orphan_tags_deleted sample_get_attributes sample_ensure_bool
           sample_serialize_languages production index_up voter_A 2 retag
           scenario_db [] Bar Bar_retagged (Some "A")).
  - reflexivity.
  - vm_compute. reflexivity.
Defined.

Lemma C4_witness :
  (∃ payload,
     (sample_update production index_down voter_A 2 retag
        (mkState scenario_db scenario_db [])).1
     = inr (standardize_response payload (Some 500))
     ∧ database (sample_update production index_down voter_A 2 retag
                   (mkState scenario_db scenario_db [])).2
       = scenario_db)
  ∧ sample_update development index_down voter_A 2 retag
      (mkState scenario_db scenario_db [])
    = sample_update development (λ _, None) voter_A 2 retag
        (mkState scenario_db scenario_db [])
  ∧ ((selects retag "free" = true →
      is_Some (sample_ensure_bool (dict_get retag "free"))) →
     let out :=
       sample_update development index_down voter_A 2 retag
         (mkState scenario_db scenario_db []) in
     ∃ r' io,
       out.1 = inr (standardize_response (ResourceData r' (Some "A")) None)
       ∧ index_calls out.2 = [] ++ [io]
       ∧ database out.2 = session out.2
       ∧ resource_table (database out.2)
         = <[2 := r']> (resource_table scenario_db)
       ∧ languages r' = ["Rust"]
       ∧ category r' = "Books"
       ∧ name r' = name Bar
       ∧ url r' = url Bar
       ∧ free r' = free Bar
       ∧ notes r' = notes Bar
       ∧ (selects retag "languages" = true →
          ∀ language, language ∈ languages Bar →
            ¬ language_referenced (database out.2) language →
            language ∉ language_table (database out.2))
       ∧ (selects retag "category" = true →
          ¬ category_referenced (database out.2) (category Bar) →
          category Bar ∉ category_table (database out.2))).
Proof.
  apply (C4_sync_failure_policy sample_get_attributes sample_ensure_bool
           sample_serialize_languages production development index_down
           voter_A (mkKey "A") 2 retag scenario_db [] Bar).
  - reflexivity.
  - reflexivity.
  - intros io. exists AlgoliaUnreachableHostException. split; reflexivity.
  - vm_compute. discriminate.
  - reflexivity.
Defined.

Lemma C5_witness :
  let out :=
    sample_update production index_up voter_A 1 {["name" := VStr "X"]}
      (mkState scenario_db scenario_db []) in
  index_calls out.2 = [] ++ [<["name" := VStr "X"]> {["objectID" := VInt 1]}]
  ∧ (∀ field,
       is_Some ((<["name" := VStr "X"]> {["objectID" := VInt 1]} : Dict)
                !! field)
       ↔ field = "objectID" ∨ field = "name")
  ∧ (∃ r',
       resource_table (database out.2) !! 1 = Some r'
       ∧ url r' = url Foo ∧ free r' = free Foo ∧ notes r' = notes Foo
       ∧ languages r' = languages Foo ∧ category r' = category Foo)
  ∧ (∀ json,
       (selects json "free" = true →
        is_Some (sample_ensure_bool (dict_get json "free"))) →
       ∃ io,
         index_calls (sample_update production index_up voter_A 1 json
                        (mkState scenario_db scenario_db [])).2
         = [] ++ [io]
         ∧ io !! "objectID" = Some (VInt 1)
         ∧ ∀ field, field ≠ "objectID" →
             (is_Some (io !! field) ↔ selects json field = true)).
Proof.
  apply (C5_partial_update_isolation sample_get_attributes sample_ensure_bool
           sample_serialize_languages production index_up voter_A (mkKey "A")
           1 scenario_db [] Foo (VStr "X")); reflexivity.
Defined.

Lemma C6_witness :
  let db' :=
    database (sample_update production index_up voter_A 1 falsy_fields
                (mkState scenario_db scenario_db [])).2 in
  resource_table db' !! 1 = Some Foo_cleared
  ∧ languages Foo_cleared
    = (if selects falsy_fields "languages"
       then (sample_get_attributes falsy_fields).1 else languages Foo)
  ∧ category Foo_cleared
    = (if selects falsy_fields "category"
       then (sample_get_attributes falsy_fields).2 else category Foo)
  ∧ name Foo_cleared
    = (if selects falsy_fields "name" then dict_get falsy_fields "name"
       else name Foo)
  ∧ url Foo_cleared
    = (if selects falsy_fields "url" then dict_get falsy_fields "url"
       else url Foo)
  ∧ (if selects falsy_fields "free"
     then sample_ensure_bool (dict_get falsy_fields "free")
          = Some (free Foo_cleared)
     else free Foo_cleared = free Foo)
  ∧ notes Foo_cleared
    = (if selects falsy_fields "notes" then dict_get falsy_fields "notes"
       else notes Foo)
  ∧ upvotes Foo_cleared = upvotes Foo
  ∧ downvotes Foo_cleared = downvotes Foo
  ∧ times_clicked Foo_cleared = times_clicked Foo.
Proof.
  apply (C6_field_selection sample_get_attributes sample_ensure_bool
           sample_serialize_languages production index_up voter_A 1
           falsy_fields scenario_db [] Foo Foo_cleared (Some "A")).
  - reflexivity.
  - vm_compute. reflexivity.
Defined.

Lemma selects_empty field : selects ∅ field = false.
Proof.
  unfold selects, present_not_null, present_truthy, present.
  rewrite lookup_empty. by repeat case_decide.
Qed.

Lemma C10_witness :
  let out :=
    sample_update production index_down voter_A 1 ∅
      (mkState scenario_db scenario_db []) in
  index_calls out.2 = [] ++ [{["objectID" := VInt 1]}]
  ∧ (production !! "FLASK_ENV" ≠ Some "development" →
     ∀ e, index_down {["objectID" := VInt 1]} = Some e →
          is_algolia_exception e = true →
          out.1 = inr (standardize_response (AlgoliaFailed (name Foo))
                         (Some 500))
          ∧ database out.2 = scenario_db).
Proof.
  apply (C10_empty_update_still_synchronizes sample_get_attributes
           sample_ensure_bool sample_serialize_languages production
           index_down voter_A (mkKey "A") 1 ∅ scenario_db [] Foo).
  - reflexivity.
  - reflexivity.
  - apply selects_empty.
Defined.

(** * Further properties of the handlers *)

(** ** Unknown resources and missing keys *)

Lemma change_votes_unknown g id vote_direction st :
  resource_table (session st) !! id = None →
  change_votes g id vote_direction st = (inr (redirect "/404"), st).
Proof.
  intros Hr. unfold change_votes. case_decide; [|done].
  unfold update_votes. unfold_handler. by rewrite Hr.
Qed.

Lemma change_votes_no_key g id d st r :
  auth_key g = None →
  resource_table (session st) !! id = Some r →
  change_votes g id (direction_name d) st = (inl AttributeError, st).
Proof.
  intros Hk Hr. unfold change_votes.
  rewrite decide_True by (destruct d; set_solver).
  rewrite vote_attribute. unfold update_votes.
  destruct d; vote_step; rewrite Hr; vote_step; rewrite Hk; done.
Qed.

(** X1: for an id that no resource has, [change_votes], with any
    direction and any caller, and [update_resource_click] answer with a
    redirect to [/404] and leave the session, the datastore and the index
    calls as they were. *)
Theorem unknown_resource_vote_click g id vote_direction st :
  resource_table (session st) !! id = None →
  change_votes g id vote_direction st = (inr (redirect "/404"), st)
  ∧ update_resource_click g id st = (inr (redirect "/404"), st).
Proof.
  intros Hr. split; [by apply change_votes_unknown|].
  unfold update_resource_click, add_click. unfold_handler. by rewrite Hr.
Qed.

Lemma unknown_resource_vote_click_witness :
  change_votes anonymous 7 "upvote" (mkState scenario_db scenario_db [])
  = (inr (redirect "/404"), mkState scenario_db scenario_db [])
  ∧ update_resource_click anonymous 7 (mkState scenario_db scenario_db [])
    = (inr (redirect "/404"), mkState scenario_db scenario_db []).
Proof.
  apply (unknown_resource_vote_click anonymous 7 "upvote"). reflexivity.
Defined.

Lemma unknown_resource_update_run get_attributes ensure_bool
    serialize_languages environ index_outcome g k id json st :
  auth_key g = Some k →
  resource_table (session st) !! id = None →
  update_resource get_attributes ensure_bool serialize_languages environ
    index_outcome g id json st
  = (inr (redirect "/404"), st).
Proof.
  intros Hk Hr. unfold update_resource. unfold_handler. by rewrite Hr, Hk.
Qed.

Lemma update_resource_no_key get_attributes ensure_bool serialize_languages
    environ index_outcome g id json st :
  auth_key g = None →
  update_resource get_attributes ensure_bool serialize_languages environ
    index_outcome g id json st
  = (inl AttributeError, st).
Proof.
  intros Hk. unfold update_resource. unfold_handler. rewrite Hk.
  by destruct (resource_table (session st) !! id).
Qed.

(** X2: for an authenticated caller and an id that no resource has,
    [update_resource] answers with a redirect to [/404] before it builds a
    patch: the session, the datastore and the index calls are as before. *)
Theorem unknown_resource_update get_attributes ensure_bool serialize_languages
    environ index_outcome g k id json st :
  auth_key g = Some k →
  resource_table (session st) !! id = None →
  update_resource get_attributes ensure_bool serialize_languages environ
    index_outcome g id json st
  = (inr (redirect "/404"), st).
Proof. apply unknown_resource_update_run. Qed.

(** X3: with no key in [g], [update_resource] raises [AttributeError]
    before it looks at the resource, and a vote on an existing resource
    raises it before the ledger is read; in both cases the state is as
    before. *)
Theorem missing_key_raises get_attributes ensure_bool serialize_languages
    environ index_outcome g id json d st r :
  auth_key g = None →
  update_resource get_attributes ensure_bool serialize_languages environ
    index_outcome g id json st
  = (inl AttributeError, st)
  ∧ (resource_table (session st) !! id = Some r →
     change_votes g id (direction_name d) st = (inl AttributeError, st)).
Proof.
  intros Hk. split.
  - by apply update_resource_no_key.
  - intros Hr. by apply (change_votes_no_key g id d st r).
Qed.

(** ** Failures inside [update_resource] *)

Section UpdateFailures.

Variable get_attributes : Dict → list string * string.
Variable ensure_bool : value → option bool.
Variable serialize_languages : Resource → string → value.
Variable environ : gmap string string.
Variable index_outcome : Dict → option exn.

Abbreviation update :=
  (update_resource get_attributes ensure_bool serialize_languages environ
     index_outcome).

Lemma staged_free_present json r v :
  json !! "free" = Some v →
  staged_free ensure_bool json r = ensure_bool v.
Proof.
  intros Hv. unfold staged_free, dict_contains, dict_get. rewrite Hv.
  by rewrite bool_decide_eq_true_2 by by eexists.
Qed.

(** X4: when the document has a [free] value that [ensure_bool] refuses,
    [update_resource] answers with status 500 and no payload, never calls
    the index, and leaves the datastore as it was, whatever else the
    document selects. *)
Theorem free_coercion_failure g k id json db calls r v :
  auth_key g = Some k →
  resource_table db !! id = Some r →
  json !! "free" = Some v →
  ensure_bool v = None →
  let out :=
    update_resource get_attributes ensure_bool serialize_languages environ
      index_outcome g id json (mkState db db calls) in
  out.1 = inr (standardize_response NoPayload (Some 500))
  ∧ database out.2 = db
  ∧ index_calls out.2 = calls.
Proof.
  intros Hk Hr Hv He out. subst out.
  destruct (get_attributes json) as [langs categ] eqn:Hga.
  rewrite (update_resource_run get_attributes ensure_bool
             serialize_languages environ index_outcome g k id json db
             db calls r langs categ Hk Hr Hga).
  by rewrite (staged_free_present json r v Hv), He.
Qed.

(** X5: an exception of the index that is not one of the two Algolia
    exceptions is not tolerated in any environment, development included:
    the patch was sent, the answer is status 500 (422 for an
    [IntegrityError]) without payload, and the datastore is as it was. *)
Theorem unforeseen_index_failure g k id json db calls r e :
  auth_key g = Some k →
  resource_table db !! id = Some r →
  (selects json "free" = true →
   is_Some (ensure_bool (dict_get json "free"))) →
  (∀ io, index_outcome io = Some e) →
  is_algolia_exception e = false →
  let out := update g id json (mkState db db calls) in
  out.1 = inr (standardize_response NoPayload
                 (Some (match e with IntegrityError => 422 | _ => 500 end)))
  ∧ database out.2 = db
  ∧ ∃ io, index_calls out.2 = calls ++ [io].
Proof.
  intros Hk Hr Hfree Hio He out. subst out.
  destruct (get_attributes json) as [langs categ] eqn:Hga.
  rewrite (update_resource_run get_attributes ensure_bool
             serialize_languages environ index_outcome g k id json db
             db calls r langs categ Hk Hr Hga).
  assert (∃ fr, staged_free ensure_bool json r = Some fr) as [fr ->].
  { unfold staged_free. rewrite <- selects_free.
    destruct (selects json "free"); [by apply Hfree|by eexists]. }
  cbv zeta. rewrite Hio, He. cbn [fst snd database index_calls].
  split; [done|]. split; [done|]. by eexists.
Qed.

(** X6: outside development mode, when the index raises an Algolia
    exception, the 500 answer names the resource by the name the document
    asked for, when it selects one, although the datastore still holds the
    resource as it was. *)
Theorem strict_failure_names_staged_name g k id json db calls r :
  auth_key g = Some k →
  resource_table db !! id = Some r →
  (selects json "free" = true →
   is_Some (ensure_bool (dict_get json "free"))) →
  (∀ io, ∃ e, index_outcome io = Some e ∧ is_algolia_exception e = true) →
  environ !! "FLASK_ENV" ≠ Some "development" →
  let out := update g id json (mkState db db calls) in
  out.1
  = inr (standardize_response
           (AlgoliaFailed
              (if selects json "name" then dict_get json "name" else name r))
           (Some 500))
  ∧ resource_table (database out.2) !! id = Some r.
Proof.
  intros Hk Hr Hfree Hio Henv out. subst out.
  destruct (get_attributes json) as [langs categ] eqn:Hga.
  rewrite (update_resource_run get_attributes ensure_bool
             serialize_languages environ index_outcome g k id json db
             db calls r langs categ Hk Hr Hga).
  assert (∃ fr, staged_free ensure_bool json r = Some fr) as [fr ->].
  { unfold staged_free. rewrite <- selects_free.
    destruct (selects json "free"); [by apply Hfree|by eexists]. }
  cbv zeta.
  destruct (Hio (staged_index_object id json
                   (serialize_languages (with_languages langs r) (apikey k))
                   categ fr)) as (e & -> & ->).
  rewrite decide_True by done. cbn [fst snd database].
  destruct (staged_resource_fields json langs categ fr r)
    as (_ & _ & -> & _). done.
Qed.

(** X7: [update_resource] calls the index at most once, with a patch whose
    [objectID] is the resource's id, and the datastore changes only after a
    call that the index accepted or that raised an Algolia exception in
    development mode. *)
Theorem commit_follows_index_call g id json db calls :
  let out := update g id json (mkState db db calls) in
  (index_calls out.2 = calls
   ∨ ∃ io, index_calls out.2 = calls ++ [io]
           ∧ io !! "objectID" = Some (VInt id))
  ∧ (database out.2 ≠ db →
     ∃ io, index_calls out.2 = calls ++ [io]
           ∧ (index_outcome io = None
              ∨ ∃ e, index_outcome io = Some e
                     ∧ is_algolia_exception e = true
                     ∧ environ !! "FLASK_ENV" = Some "development")).
Proof.
  cbv zeta.
  destruct (auth_key g) as [k|] eqn:Hk.
  - destruct (resource_table db !! id) as [r|] eqn:Hr.
    + destruct (get_attributes json) as [langs categ] eqn:Hga.
      rewrite (update_resource_run get_attributes ensure_bool
                 serialize_languages environ index_outcome g k id json db
                 db calls r langs categ Hk Hr Hga).
      destruct (staged_free ensure_bool json r) as [fr|];
        [|split; [by left|done]].
      cbv zeta.
      set (io := staged_index_object _ _ _ _ _).
      assert (Hid : io !! "objectID" = Some (VInt id))
        by apply staged_index_object_id.
      destruct (index_outcome io) as [e|] eqn:Hio;
        [destruct (is_algolia_exception e) eqn:He;
         [destruct (decide (environ !! "FLASK_ENV" ≠ Some "development"))
            as [Henv|Henv]|]
        |]; cbn [snd database index_calls].
      all: split; [right; by exists io|]; try done.
      * intros _. exists io. split; [done|]. right. exists e.
        repeat split; try done.
        destruct (environ !! "FLASK_ENV") as [s|]; [|by destruct Henv].
        destruct (decide (s = "development")) as [->|]; [done|].
        destruct Henv. congruence.
      * intros _. exists io. split; [done|]. by left.
    + unfold update_resource. unfold_handler. rewrite Hr, Hk.
      cbn. split; [by left|done].
  - unfold update_resource. unfold_handler. rewrite Hk.
    destruct (resource_table db !! id); cbn; (split; [by left|done]).
Qed.

End UpdateFailures.

(** ** What a request leaves alone *)

Lemma change_votes_outcome g id vote_direction db calls :
  let db' :=
    database (change_votes g id vote_direction (mkState db db calls)).2 in
  db' = db
  ∨ ∃ k r d,
      auth_key g = Some k
      ∧ resource_table db !! id = Some r
      ∧ vote_direction = direction_name d
      ∧ db' = cast_db (apikey k) id d r db.
Proof.
  cbv zeta.
  destruct (decide (vote_direction ∈ ["upvote"; "downvote"])) as [Hin|Hin].
  - assert (∃ d, vote_direction = direction_name d) as [d ->].
    { apply elem_of_cons in Hin as [->|Hin]; [by exists Upvote|].
      apply elem_of_cons in Hin as [->|Hin]; [by exists Downvote|].
      by apply elem_of_nil in Hin. }
    destruct (resource_table db !! id) as [r|] eqn:Hr.
    + destruct (auth_key g) as [k|] eqn:Hk.
      * right. exists k, r, d. repeat split; try done.
        by rewrite (change_votes_run g k db calls id r d Hk Hr).
      * left.
        by rewrite (change_votes_no_key g id d (mkState db db calls) r Hk Hr).
    + left.
      by rewrite (change_votes_unknown g id (direction_name d)
                    (mkState db db calls) Hr).
  - left. unfold change_votes. by rewrite decide_False.
Qed.

Lemma cast_db_other_resource api_key id d r db rid :
  rid ≠ id →
  resource_table (cast_db api_key id d r db) !! rid = resource_table db !! rid.
Proof.
  intros Hne. unfold cast_db. cbn [resource_table].
  by rewrite lookup_insert_ne.
Qed.

Lemma cast_db_other_row api_key id d r db key :
  key ≠ (api_key, id) →
  vote_information_table (cast_db api_key id d r db) !! key
  = vote_information_table db !! key.
Proof.
  intros Hne. unfold cast_db. cbn [vote_information_table].
  by rewrite lookup_insert_ne.
Qed.

(** X8: a vote request leaves the language, category and key tables,
    every other resource and every other ledger row as they were, and on the
    voted resource it can change [upvotes] and [downvotes] only. *)
Theorem vote_frame g id vote_direction db calls :
  let db' :=
    database (change_votes g id vote_direction (mkState db db calls)).2 in
  language_table db' = language_table db
  ∧ category_table db' = category_table db
  ∧ key_table db' = key_table db
  ∧ (∀ rid, rid ≠ id →
       resource_table db' !! rid = resource_table db !! rid)
  ∧ (∀ voter rid,
       (∀ k, auth_key g = Some k → (voter, rid) ≠ (apikey k, id)) →
       vote_information_table db' !! (voter, rid)
       = vote_information_table db !! (voter, rid))
  ∧ (∀ r r',
       resource_table db !! id = Some r →
       resource_table db' !! id = Some r' →
       name r' = name r ∧ url r' = url r ∧ free r' = free r
       ∧ notes r' = notes r ∧ times_clicked r' = times_clicked r
       ∧ languages r' = languages r ∧ category r' = category r).
Proof.
  intros db'. subst db'.
  destruct (change_votes_outcome g id vote_direction db calls)
    as [->|(k & r & d & Hk & Hr & -> & ->)].
  - split_and!; try done. intros r r' Hr Hr'. by simplify_eq.
  - split_and!; try done.
    + intros rid Hne. by apply cast_db_other_resource.
    + intros voter rid Hne. apply cast_db_other_row. by apply Hne.
    + intros r0 r' Hr0. rewrite cast_db_resource. intros [= <-].
      by simplify_eq.
Qed.

Lemma add_click_database g id db calls :
  let db' := database (add_click g id (mkState db db calls)).2 in
  db' = db
  ∨ ∃ r, resource_table db !! id = Some r
         ∧ db' = put_resource_row id (clicked 1 r) db.
Proof.
  cbv zeta. destruct (resource_table db !! id) as [r|] eqn:Hr.
  - right. exists r. split; [done|].
    by rewrite (add_click_run g id db calls r Hr).
  - left. unfold add_click. unfold_handler. by rewrite Hr.
Qed.

Lemma languages_in_use_replace id r r' tbl :
  tbl !! id = Some r →
  languages r' = languages r →
  languages_in_use (<[id := r']> tbl) = languages_in_use tbl.
Proof.
  intros Hr Heq. rewrite (languages_in_use_insert id r' r tbl Heq).
  by rewrite insert_id.
Qed.

Lemma categories_in_use_replace id r r' tbl :
  tbl !! id = Some r →
  category r' = category r →
  categories_in_use (<[id := r']> tbl) = categories_in_use tbl.
Proof.
  intros Hr Heq. rewrite (categories_in_use_insert id r' r tbl Heq).
  by rewrite insert_id.
Qed.

(** The scan and the deletions leave exactly the languages in use, when
    the table held exactly the languages in use before. *)
Lemma pruned_languages_exact id r r1 tbl langs :
  tbl !! id = Some r →
  languages r1 = langs →
  (languages_in_use tbl ∪ list_to_set langs)
  ∖ (list_to_set (languages r) ∖ languages_in_use (<[id := r1]> tbl))
  = languages_in_use (<[id := r1]> tbl).
Proof.
  intros Hr Hl. apply set_eq. intros x.
  rewrite elem_of_difference, elem_of_union, elem_of_difference,
    !elem_of_list_to_set.
  destruct (decide (x ∈ languages_in_use (<[id := r1]> tbl))) as [HU|HU].
  - split; [done|]. intros _. split; [|by intros [_ Hn]].
    apply elem_of_languages_in_use_insert in HU
      as [Hin|(rid & r2 & Hne & Hr2 & Hin)].
    + right. by rewrite <- Hl.
    + left. apply elem_of_languages_in_use. by exists rid, r2.
  - split; [|done]. intros [[Hin|Hin] Hkeep].
    + apply elem_of_languages_in_use in Hin as (rid & r2 & Hr2 & Hin).
      destruct (decide (rid = id)) as [->|Hne].
      * rewrite Hr in Hr2. injection Hr2 as <-. by destruct Hkeep.
      * destruct HU. apply elem_of_languages_in_use_insert. right.
        by exists rid, r2.
    + destruct HU. apply elem_of_languages_in_use_insert. left.
      by rewrite Hl.
Qed.

Lemma pruned_categories_exact id r r1 tbl categ :
  tbl !! id = Some r →
  category r1 = categ →
  (categories_in_use tbl ∪ {[categ]})
  ∖ ({[category r]} ∖ categories_in_use (<[id := r1]> tbl))
  = categories_in_use (<[id := r1]> tbl).
Proof.
  intros Hr Hc. apply set_eq. intros x.
  rewrite elem_of_difference, elem_of_union, elem_of_difference,
    !elem_of_singleton.
  destruct (decide (x ∈ categories_in_use (<[id := r1]> tbl))) as [HU|HU].
  - split; [done|]. intros _. split; [|by intros [_ Hn]].
    apply elem_of_categories_in_use_insert in HU
      as [Hin|(rid & r2 & Hne & Hr2 & Hin)].
    + right. by rewrite <- Hc.
    + left. apply elem_of_categories_in_use. by exists rid, r2.
  - split; [|done]. intros [[Hin|Hin] Hkeep].
    + apply elem_of_categories_in_use in Hin as (rid & r2 & Hr2 & Hin).
      destruct (decide (rid = id)) as [->|Hne].
      * rewrite Hr in Hr2. injection Hr2 as <-. by destruct Hkeep.
      * destruct HU. apply elem_of_categories_in_use_insert. right.
        by exists rid, r2.
    + destruct HU. apply elem_of_categories_in_use_insert. left.
      by rewrite Hc.
Qed.

Lemma staged_session_exact id json langs categ fr r db :
  resource_table db !! id = Some r →
  tag_tables_exact db →
  tag_tables_exact
    (staged_session id json langs categ
       (staged_resource json langs categ fr r) r db).
Proof.
  intros Hr [HL HC].
  destruct (staged_resource_fields json langs categ fr r)
    as (Hl & Hc & _).
  set (r' := staged_resource json langs categ fr r) in *.
  unfold tag_tables_exact, staged_session, staged_language_table,
    staged_category_table.
  cbn [resource_table language_table category_table].
  rewrite <- selects_languages, <- selects_category. split.
  - destruct (selects json "languages"); cbn [step_if].
    + rewrite HL.
      rewrite (languages_in_use_insert id r' (with_languages langs r))
        by done.
      by apply pruned_languages_exact.
    + rewrite HL. symmetry. by apply (languages_in_use_replace id r).
  - destruct (selects json "category"); cbn [step_if].
    + rewrite HC.
      set (r1 := step_if (selects json "languages") _ r).
      rewrite (categories_in_use_insert id r' (with_category categ r1))
        by done.
      by apply pruned_categories_exact.
    + rewrite HC. symmetry. by apply (categories_in_use_replace id r).
Qed.

Lemma replaced_row_exact id r r' db db' :
  resource_table db !! id = Some r →
  languages r' = languages r →
  category r' = category r →
  resource_table db' = <[id := r']> (resource_table db) →
  language_table db' = language_table db →
  category_table db' = category_table db →
  tag_tables_exact db →
  tag_tables_exact db'.
Proof.
  intros Hr Hl Hc HT HLT HCT [HL HC]. unfold tag_tables_exact.
  rewrite HT, HLT, HCT.
  rewrite (languages_in_use_replace id r r' _ Hr Hl).
  by rewrite (categories_in_use_replace id r r' _ Hr Hc).
Qed.

Section AllOperations.

Variable get_attributes : Dict → list string * string.
Variable ensure_bool : value → option bool.
Variable serialize_languages : Resource → string → value.
Variable environ : gmap string string.
Variable index_outcome : Dict → option exn.

Abbreviation serve :=
  (perform get_attributes ensure_bool serialize_languages environ
     index_outcome).

(** X9: orphan cleanup is exact: when the language and category tables
    hold exactly the tags that some resource uses, they still do after any
    request (an update with any document and any index answer, a vote, a
    click). *)
Theorem tag_tables_stay_exact g op db calls :
  tag_tables_exact db →
  tag_tables_exact (database (serve g op (mkState db db calls)).2).
Proof.
  intros Hex. destruct op as [id dir|id json|id]; cbn [perform].
  - destruct (change_votes_outcome g id dir db calls)
      as [->|(k & r & d & Hk & Hr & -> & ->)]; [done|].
    by apply (replaced_row_exact id r
                (cast_resource
                   (row_state (vote_information_table db !! (apikey k, id)))
                   d r) db).
  - destruct (update_resource_database get_attributes ensure_bool
                serialize_languages environ index_outcome g id json db calls)
      as [->|(r & fr & Hr & Hfr & ->)]; [done|].
    by apply staged_session_exact.
  - unfold update_resource_click.
    destruct (add_click_database g id db calls) as [->|(r & Hr & ->)];
      [done|].
    by apply (replaced_row_exact id r (clicked 1 r) db).
Qed.

(** X10: no request removes a ledger row or changes the voter a row is
    linked to. *)
Theorem ledger_rows_persist g op db calls key row :
  vote_information_table db !! key = Some row →
  ∃ row',
    vote_information_table
      (database
         (perform get_attributes ensure_bool serialize_languages environ
            index_outcome g op (mkState db db calls)).2)
      !! key = Some row'
    ∧ voter row' = voter row.
Proof.
  intros Hrow. destruct op as [id dir|id json|id]; cbn [perform].
  - destruct (change_votes_outcome g id dir db calls)
      as [->|(k & r & d & Hk & Hr & -> & ->)]; [by exists row|].
    destruct (decide (key = (apikey k, id))) as [->|Hne].
    + rewrite cast_db_row, Hrow. by eexists.
    + rewrite cast_db_other_row by done. by exists row.
  - destruct (update_resource_database get_attributes ensure_bool
                serialize_languages environ index_outcome g id json db calls)
      as [->|(r & fr & Hr & Hfr & ->)]; by exists row.
  - unfold update_resource_click.
    destruct (add_click_database g id db calls) as [->|(r & Hr & ->)];
      by exists row.
Qed.

(** X11: whatever its outcome, [update_resource] leaves the ledger, the
    key table and every other resource as they were, adds and removes no
    resource, and keeps [upvotes], [downvotes] and [times_clicked] of the
    resource it updates. *)
Theorem update_frame g id json db calls :
  let db' :=
    database
      (update_resource get_attributes ensure_bool serialize_languages
         environ index_outcome g id json (mkState db db calls)).2 in
  vote_information_table db' = vote_information_table db
  ∧ key_table db' = key_table db
  ∧ (∀ rid, rid ≠ id →
       resource_table db' !! rid = resource_table db !! rid)
  ∧ (resource_table db !! id = None → db' = db)
  ∧ (∀ r, resource_table db !! id = Some r →
       ∃ r', resource_table db' !! id = Some r'
             ∧ upvotes r' = upvotes r ∧ downvotes r' = downvotes r
             ∧ times_clicked r' = times_clicked r).
Proof.
  intros db'. subst db'.
  destruct (update_resource_database get_attributes ensure_bool
              serialize_languages environ index_outcome g id json db calls)
    as [->|(r & fr & Hr & Hfr & ->)].
  - split_and!; try done. intros r Hr. by exists r.
  - unfold staged_session.
    cbn [resource_table vote_information_table key_table].
    split_and!; try done.
    + intros rid Hne. by rewrite lookup_insert_ne.
    + by rewrite Hr.
    + intros r0 Hr0. rewrite Hr in Hr0. injection Hr0 as <-.
      eexists. split; [apply lookup_insert_eq|].
      destruct (staged_resource_fields json (get_attributes json).1
                  (get_attributes json).2 fr r)
        as (_ & _ & _ & _ & _ & _ & Hu & Hd & Ht).
      done.
Qed.

End AllOperations.

(** ** The patch and the stored resource *)

Lemma staged_index_object_values id json entry categ fr :
  (selects json "languages" = true →
   staged_index_object id json entry categ fr !! "languages" = Some entry)
  ∧ (selects json "category" = true →
     staged_index_object id json entry categ fr !! "category"
     = Some (VStr categ))
  ∧ (selects json "name" = true →
     staged_index_object id json entry categ fr !! "name"
     = Some (dict_get json "name"))
  ∧ (selects json "url" = true →
     staged_index_object id json entry categ fr !! "url"
     = Some (dict_get json "url"))
  ∧ (selects json "free" = true →
     staged_index_object id json entry categ fr !! "free" = Some (VBool fr))
  ∧ (selects json "notes" = true →
     staged_index_object id json entry categ fr !! "notes"
     = Some (dict_get json "notes")).
Proof.
  rewrite selects_languages, selects_category, selects_name, selects_url,
    selects_free, selects_notes.
  unfold staged_index_object.
  split_and!; intros Hsel;
    repeat (rewrite lookup_step_if_insert; decide_literals);
    by rewrite Hsel.
Qed.

Section PatchAgrees.

Variable get_attributes : Dict → list string * string.
Variable ensure_bool : value → option bool.
Variable serialize_languages : Resource → string → value.
Variable environ : gmap string string.
Variable index_outcome : Dict → option exn.

Abbreviation update :=
  (update_resource get_attributes ensure_bool serialize_languages environ
     index_outcome).

Lemma update_resource_success_patch g id json db calls r r' key :
  resource_table db !! id = Some r →
  (update g id json (mkState db db calls)).1
  = inr (standardize_response (ResourceData r' key) None) →
  ∃ k fr,
    auth_key g = Some k
    ∧ staged_free ensure_bool json r = Some fr
    ∧ r' = staged_resource json (get_attributes json).1
             (get_attributes json).2 fr r
    ∧ index_calls (update g id json (mkState db db calls)).2
      = calls ++ [staged_index_object id json
                    (serialize_languages
                       (with_languages (get_attributes json).1 r) (apikey k))
                    (get_attributes json).2 fr].
Proof.
  intros Hr. destruct (auth_key g) as [k|] eqn:Hk.
  - destruct (get_attributes json) as [langs categ] eqn:Hga.
    rewrite (update_resource_run get_attributes ensure_bool
               serialize_languages environ index_outcome g k id json db
               db calls r langs categ Hk Hr Hga).
    destruct (staged_free ensure_bool json r) as [fr|] eqn:Hfr;
      [|discriminate].
    cbv zeta.
    destruct (index_outcome _) as [e|];
      [destruct (is_algolia_exception e);
       [destruct (decide (environ !! "FLASK_ENV" ≠ Some "development"))|]
      |]; cbn [fst snd index_calls]; intros [= <- <-] || discriminate.
    all: by exists k, fr.
  - unfold update_resource. unfold_handler. rewrite Hk.
    destruct (resource_table db !! id); discriminate.
Qed.

(** A call that answers with the resource has committed its session, and
    the datastore holds that resource under the identifier. *)
Lemma update_resource_committed g id json db calls r r' key :
  resource_table db !! id = Some r →
  (update g id json (mkState db db calls)).1
  = inr (standardize_response (ResourceData r' key) None) →
  database (update g id json (mkState db db calls)).2
  = session (update g id json (mkState db db calls)).2
  ∧ resource_table (database (update g id json (mkState db db calls)).2)
    !! id = Some r'.
Proof.
  intros Hr. destruct (auth_key g) as [k|] eqn:Hk.
  - destruct (get_attributes json) as [langs categ] eqn:Hga.
    rewrite (update_resource_run get_attributes ensure_bool
               serialize_languages environ index_outcome g k id json db
               db calls r langs categ Hk Hr Hga).
    destruct (staged_free ensure_bool json r) as [fr|] eqn:Hfr;
      [|discriminate].
    cbv zeta.
    destruct (index_outcome _) as [e|];
      [destruct (is_algolia_exception e);
       [destruct (decide (environ !! "FLASK_ENV" ≠ Some "development"))|]
      |]; cbn [fst snd database session]; intros [= <- <-] || discriminate.
    all: split; [done|]; unfold staged_session; cbn [resource_table];
      apply lookup_insert_eq.
  - unfold update_resource. unfold_handler. rewrite Hk.
    destruct (resource_table db !! id); discriminate.
Qed.

(** X12: when [update_resource] answers with the resource, the datastore
    it has committed holds that resource under the identifier, and the patch
    it sent holds, for every selected field, the value of that stored
    resource: [name], [url], [notes] as stored, [free] as a boolean,
    [category] as its name, and [languages] serialized from the resource
    with its new languages. *)
Theorem patch_agrees_with_stored_resource g id json db calls r r' key :
  resource_table db !! id = Some r →
  (update g id json (mkState db db calls)).1
  = inr (standardize_response (ResourceData r' key) None) →
  ∃ io,
    index_calls (update g id json (mkState db db calls)).2 = calls ++ [io]
    ∧ database (update g id json (mkState db db calls)).2
      = session (update g id json (mkState db db calls)).2
    ∧ resource_table (database (update g id json (mkState db db calls)).2)
      !! id = Some r'
    ∧ (selects json "name" = true → io !! "name" = Some (name r'))
    ∧ (selects json "url" = true → io !! "url" = Some (url r'))
    ∧ (selects json "notes" = true → io !! "notes" = Some (notes r'))
    ∧ (selects json "free" = true → io !! "free" = Some (VBool (free r')))
    ∧ (selects json "category" = true →
       io !! "category" = Some (VStr (category r')))
    ∧ (selects json "languages" = true →
       ∀ k, auth_key g = Some k →
         io !! "languages"
         = Some (serialize_languages (with_languages (languages r') r)
                   (apikey k))).
Proof.
  intros Hr Hok.
  destruct (update_resource_committed g id json db calls r r' key Hr Hok)
    as (Hcommit & Hstored).
  destruct (update_resource_success_patch g id json db calls r r' key Hr Hok)
    as (k & fr & Hk & Hfr & Hr' & ->).
  eexists. do 3 (split; [done|]).
  destruct (staged_index_object_values id json
              (serialize_languages
                 (with_languages (get_attributes json).1 r) (apikey k))
              (get_attributes json).2 fr)
    as (Vl & Vc & Vn & Vu & Vf & Vnt).
  destruct (staged_resource_fields json (get_attributes json).1
              (get_attributes json).2 fr r)
    as (Hl & Hc & Hn & Hu & Hf & Hnt & _).
  rewrite <- Hr' in *.
  split_and!; intros Hsel.
  - rewrite Hn, Hsel. by apply Vn.
  - rewrite Hu, Hsel. by apply Vu.
  - rewrite Hnt, Hsel. by apply Vnt.
  - rewrite Hf, Hsel. by apply Vf.
  - rewrite Hc, Hsel. by apply Vc.
  - intros k' Hk'. rewrite Hk in Hk'. injection Hk' as <-.
    rewrite Hl, Hsel. by apply Vl.
Qed.

End PatchAgrees.

(** ** Sending the same document twice *)

Lemma staged_resource_idem json langs categ fr r :
  staged_resource json langs categ fr (staged_resource json langs categ fr r)
  = staged_resource json langs categ fr r.
Proof.
  unfold staged_resource, staged_head, step_if.
  by destruct (dict_contains json "notes"), (dict_contains json "free"),
    (truthy (dict_get json "url")), (truthy (dict_get json "name")),
    (truthy (dict_get json "category")),
    (is_not_None (dict_get json "languages")).
Qed.

Lemma staged_free_staged ensure_bool json langs categ fr r :
  staged_free ensure_bool json r = Some fr →
  staged_free ensure_bool json (staged_resource json langs categ fr r)
  = Some fr.
Proof.
  unfold staged_free. intros Hfr.
  destruct (staged_resource_fields json langs categ fr r)
    as (_ & _ & _ & _ & Hf & _).
  rewrite selects_free in Hf.
  destruct (dict_contains json "free"); [done|]. congruence.
Qed.

Lemma prune_again (T O : gset string) (L : list string) (U1 U2 : gset string) :
  (∀ x, x ∈ L → x ∈ U1) →
  (∀ x, x ∈ L → x ∈ U2) →
  (((T ∪ list_to_set L) ∖ (O ∖ U1)) ∪ list_to_set L)
  ∖ (list_to_set L ∖ U2)
  = (T ∪ list_to_set L) ∖ (O ∖ U1).
Proof.
  intros H1 H2. apply set_eq. intros x. set_unfold. naive_solver.
Qed.

Lemma staged_session_idem id json langs categ fr r db :
  resource_table db !! id = Some r →
  let r' := staged_resource json langs categ fr r in
  let db1 := staged_session id json langs categ r' r db in
  staged_session id json langs categ r' r' db1 = db1.
Proof.
  intros Hr r' db1. subst db1.
  destruct (staged_resource_fields json langs categ fr r)
    as (Hl & Hc & _). fold r' in Hl, Hc.
  unfold staged_session, staged_language_table, staged_category_table.
  cbn [resource_table language_table category_table vote_information_table
       key_table].
  rewrite <- !selects_languages, <- !selects_category.
  rewrite !insert_insert_eq. f_equal.
  - destruct (selects json "languages"); cbn [step_if]; [|done].
    rewrite Hl. apply prune_again; intros x Hx.
    + apply elem_of_languages_in_use_insert. by left.
    + apply elem_of_languages_in_use_insert. by left.
  - destruct (selects json "category"); cbn [step_if]; [|done].
    rewrite Hc.
    pose proof (prune_again (category_table db) {[category r]} [categ])
      as Hp.
    cbn [list_to_set] in Hp. rewrite !(right_id_L ∅ (∪)) in Hp.
    apply Hp; intros x Hx; apply list_elem_of_singleton in Hx as ->;
      apply elem_of_categories_in_use_insert; by left.
Qed.

Section Idempotence.

Variable get_attributes : Dict → list string * string.
Variable ensure_bool : value → option bool.
Variable serialize_languages : Resource → string → value.
Variable environ : gmap string string.
Variable index_outcome : Dict → option exn.

(** X13: with an index that accepts every patch, sending the same document
    a second time changes nothing: the datastore after the second call is
    the datastore after the first. *)
Theorem update_twice_is_update_once g k id json db calls calls' r :
  auth_key g = Some k →
  resource_table db !! id = Some r →
  (selects json "free" = true →
   is_Some (ensure_bool (dict_get json "free"))) →
  (∀ io, index_outcome io = None) →
  let db1 :=
    database
      (update_resource get_attributes ensure_bool serialize_languages
         environ index_outcome g id json (mkState db db calls)).2 in
  database
    (update_resource get_attributes ensure_bool serialize_languages
       environ index_outcome g id json (mkState db1 db1 calls')).2
  = db1.
Proof.
  intros Hk Hr Hfree Hio db1. subst db1.
  destruct (get_attributes json) as [langs categ] eqn:Hga.
  assert (∃ fr, staged_free ensure_bool json r = Some fr) as [fr Hfr].
  { unfold staged_free. rewrite <- selects_free.
    destruct (selects json "free"); [by apply Hfree|by eexists]. }
  rewrite (update_resource_run get_attributes ensure_bool
             serialize_languages environ index_outcome g k id json db
             db calls r langs categ Hk Hr Hga).
  rewrite Hfr. cbv zeta. rewrite Hio. cbn [snd database].
  set (r' := staged_resource json langs categ fr r).
  assert (Hr' : resource_table (staged_session id json langs categ r' r db)
                !! id = Some r')
    by apply lookup_insert_eq.
  rewrite (update_resource_run get_attributes ensure_bool
             serialize_languages environ index_outcome g k id json _
             _ calls' r' langs categ Hk Hr' Hga).
  unfold r' at 1. rewrite (staged_free_staged _ _ _ _ _ _ Hfr).
  cbv zeta. rewrite Hio. cbn [snd database].
  unfold r' at 1. rewrite staged_resource_idem.
  by apply staged_session_idem.
Qed.

End Idempotence.

(** ** Votes of different voters, and votes in different directions *)

(** X14: the votes of two different voters on one resource can be served
    in either order: the resulting datastore is the same. *)
Theorem votes_of_two_voters_commute g1 g2 k1 k2 id d1 d2 db r :
  auth_key g1 = Some k1 →
  auth_key g2 = Some k2 →
  apikey k1 ≠ apikey k2 →
  resource_table db !! id = Some r →
  let vote g d db :=
    database (change_votes g id (direction_name d) (mkState db db [])).2 in
  vote g2 d2 (vote g1 d1 db) = vote g1 d1 (vote g2 d2 db).
Proof.
  intros Hk1 Hk2 Hne Hr vote. subst vote. cbv beta.
  rewrite (change_votes_run g1 k1 db [] id r d1 Hk1 Hr).
  rewrite (change_votes_run g2 k2 db [] id r d2 Hk2 Hr).
  cbn [snd database].
  rewrite (change_votes_run g2 k2 _ [] id _ d2 Hk2
             (cast_db_resource _ _ _ _ _)).
  rewrite (change_votes_run g1 k1 _ [] id _ d1 Hk1
             (cast_db_resource _ _ _ _ _)).
  cbn [snd database]. unfold cast_db at 1 3.
  rewrite !cast_db_other_row by congruence.
  unfold cast_db. cbn [resource_table language_table category_table
                       vote_information_table key_table].
  rewrite !insert_insert_eq. f_equal.
  - f_equal. unfold cast_resource.
    cbn [name url free notes upvotes downvotes times_clicked languages
         category].
    f_equal; lia.
  - apply insert_insert_ne. congruence.
Qed.

(** X15: whatever the voter's state, a vote in one direction followed by a
    vote in the other leaves the voter in the second direction; [upvotes]
    and [downvotes] together grow by one if the voter had no active vote,
    and not at all otherwise. *)
Theorem last_direction_wins g k id d db r :
  auth_key g = Some k →
  resource_table db !! id = Some r →
  let vote d db :=
    database (change_votes g id (direction_name d) (mkState db db [])).2 in
  let db2 := vote (opposite d) (vote d db) in
  ledger_state db2 (apikey k) id = state_of (opposite d)
  ∧ ∃ r2,
      resource_table db2 !! id = Some r2
      ∧ upvotes r2 + downvotes r2
        = upvotes r + downvotes r
          + match ledger_state db (apikey k) id with NONE => 1 | _ => 0 end.
Proof.
  intros Hk Hr vote db2. subst db2 vote. cbv beta.
  rewrite (change_votes_run g k db [] id r d Hk Hr). cbn [snd database].
  rewrite (change_votes_run g k _ [] id _ (opposite d) Hk
             (cast_db_resource _ _ _ _ _)).
  cbn [snd database]. rewrite !cast_db_ledger_state.
  rewrite cast_db_resource, cast_db_row, row_state_cast_row.
  change (row_state (vote_information_table db !! (apikey k, id)))
    with (ledger_state db (apikey k) id).
  destruct (ledger_state db (apikey k) id), d; cbn; split; try done;
    eexists; (split; [reflexivity|]); cbn; lia.
Qed.

(** ** The attribute name and the direction *)

(** X16: [(s + c)[:-1]] is [s] for every string [s] and character [c]; so
    [update_votes] recovers from the attribute name the direction to which
    [change_votes] appended the letter s. *)
Theorem drop_last_appended s c : drop_last (s +:+ String c "") = s.
Proof.
  induction s as [|a s IH]; [done|].
  destruct s as [|b s]; [done|].
  exact (f_equal (String a) IH).
Qed.

(** ** The route of [update_resource] *)


(** ** The further properties at concrete inputs *)

Lemma unknown_resource_update_witness :
  sample_update production index_up voter_A 7 rename
    (mkState scenario_db scenario_db [])
  = (inr (redirect "/404"), mkState scenario_db scenario_db []).
Proof.
  apply (unknown_resource_update sample_get_attributes sample_ensure_bool
           sample_serialize_languages production index_up voter_A (mkKey "A")
           7 rename (mkState scenario_db scenario_db [])); reflexivity.
Defined.

Lemma missing_key_raises_witness :
  sample_update production index_up anonymous 1 rename
    (mkState scenario_db scenario_db [])
  = (inl AttributeError, mkState scenario_db scenario_db [])
  ∧ (resource_table scenario_db !! 1 = Some Foo →
     change_votes anonymous 1 "upvote" (mkState scenario_db scenario_db [])
     = (inl AttributeError, mkState scenario_db scenario_db [])).
Proof.
  exact (missing_key_raises sample_get_attributes sample_ensure_bool
           sample_serialize_languages production index_up anonymous 1 rename
           Upvote (mkState scenario_db scenario_db []) Foo eq_refl).
Defined.

Lemma free_coercion_failure_witness :
  let out :=
    sample_update production index_up voter_A 1 bad_free
      (mkState scenario_db scenario_db []) in
  out.1 = inr (standardize_response NoPayload (Some 500))
  ∧ database out.2 = scenario_db
  ∧ index_calls out.2 = [].
Proof.
  apply (free_coercion_failure sample_get_attributes sample_ensure_bool
           sample_serialize_languages production index_up voter_A (mkKey "A")
           1 bad_free scenario_db [] Foo (VStr "maybe")); reflexivity.
Defined.

Lemma unforeseen_index_failure_witness :
  let out :=
    sample_update development index_broken voter_A 1 rename
      (mkState scenario_db scenario_db []) in
  out.1 = inr (standardize_response NoPayload (Some 500))
  ∧ database out.2 = scenario_db
  ∧ ∃ io, index_calls out.2 = [] ++ [io].
Proof.
  apply (unforeseen_index_failure sample_get_attributes sample_ensure_bool
           sample_serialize_languages development index_broken voter_A
           (mkKey "A") 1 rename scenario_db [] Foo OtherException).
  - reflexivity.
  - reflexivity.
  - intros H. vm_compute in H. discriminate H.
  - reflexivity.
  - reflexivity.
Defined.

Lemma strict_failure_names_staged_name_witness :
  let out :=
    sample_update production index_down voter_A 1 rename
      (mkState scenario_db scenario_db []) in
  out.1
  = inr (standardize_response (AlgoliaFailed (VStr "New")) (Some 500))
  ∧ resource_table (database out.2) !! 1 = Some Foo.
Proof.
  apply (strict_failure_names_staged_name sample_get_attributes
           sample_ensure_bool sample_serialize_languages production
           index_down voter_A (mkKey "A") 1 rename scenario_db [] Foo).
  - reflexivity.
  - reflexivity.
  - intros H. vm_compute in H. discriminate H.
  - intros io. exists AlgoliaUnreachableHostException. by split.
  - vm_compute. discriminate.
Defined.

Lemma tag_tables_stay_exact_witness :
  tag_tables_exact
    (database
       (perform sample_get_attributes sample_ensure_bool
          sample_serialize_languages production index_up voter_A
          (ResourceUpdate 2 retag)
          (mkState scenario_db scenario_db [])).2).
Proof.
  apply (tag_tables_stay_exact sample_get_attributes sample_ensure_bool
           sample_serialize_languages production index_up voter_A
           (ResourceUpdate 2 retag) scenario_db []).
  apply (bool_decide_unpack (tag_tables_exact scenario_db)).
  vm_compute. reflexivity.
Defined.

Lemma ledger_rows_persist_witness :
  ∃ row',
    vote_information_table
      (database
         (perform sample_get_attributes sample_ensure_bool
            sample_serialize_languages production index_up voter_A
            (VoteCast 1 "upvote")
            (mkState scenario_upvoted scenario_upvoted [])).2)
      !! ("A", 1) = Some row'
    ∧ voter row' = Some "A".
Proof.
  exact (ledger_rows_persist sample_get_attributes sample_ensure_bool
           sample_serialize_languages production index_up voter_A
           (VoteCast 1 "upvote") scenario_upvoted [] ("A", 1)
           (mkVoteInformation (Some "upvote") (Some "A")) eq_refl).
Defined.

Lemma patch_agrees_with_stored_resource_witness :
  ∃ io,
    index_calls (sample_update production index_up voter_A 2 retag
                   (mkState scenario_db scenario_db [])).2
    = [] ++ [io]
    ∧ database (sample_update production index_up voter_A 2 retag
                  (mkState scenario_db scenario_db [])).2
      = session (sample_update production index_up voter_A 2 retag
                   (mkState scenario_db scenario_db [])).2
    ∧ resource_table
        (database (sample_update production index_up voter_A 2 retag
                     (mkState scenario_db scenario_db [])).2)
      !! 2 = Some Bar_retagged
    ∧ (selects retag "name" = true → io !! "name" = Some (name Bar_retagged))
    ∧ (selects retag "url" = true → io !! "url" = Some (url Bar_retagged))
    ∧ (selects retag "notes" = true →
       io !! "notes" = Some (notes Bar_retagged))
    ∧ (selects retag "free" = true →
       io !! "free" = Some (VBool (free Bar_retagged)))
    ∧ (selects retag "category" = true →
       io !! "category" = Some (VStr (category Bar_retagged)))
    ∧ (selects retag "languages" = true →
       ∀ k, auth_key voter_A = Some k →
         io !! "languages"
         = Some (sample_serialize_languages
                   (with_languages (languages Bar_retagged) Bar) (apikey k))).
Proof.
  apply (patch_agrees_with_stored_resource sample_get_attributes
           sample_ensure_bool sample_serialize_languages production index_up
           voter_A 2 retag scenario_db [] Bar Bar_retagged (Some "A")).
  - reflexivity.
  - vm_compute. reflexivity.
Defined.

Lemma update_twice_is_update_once_witness :
  let db1 :=
    database (sample_update production index_up voter_A 2 retag
                (mkState scenario_db scenario_db [])).2 in
  database (sample_update production index_up voter_A 2 retag
              (mkState db1 db1 [])).2
  = db1.
Proof.
  apply (update_twice_is_update_once sample_get_attributes sample_ensure_bool
           sample_serialize_languages production index_up voter_A (mkKey "A")
           2 retag scenario_db [] [] Bar).
  - reflexivity.
  - reflexivity.
  - intros H. vm_compute in H. discriminate H.
  - reflexivity.
Defined.

Lemma votes_of_two_voters_commute_witness :
  let vote g d db :=
    database (change_votes g 1 (direction_name d) (mkState db db [])).2 in
  vote voter_B Downvote (vote voter_A Upvote scenario_db)
  = vote voter_A Upvote (vote voter_B Downvote scenario_db).
Proof.
  apply (votes_of_two_voters_commute voter_A voter_B (mkKey "A") (mkKey "B")
           1 Upvote Downvote scenario_db Foo).
  - reflexivity.
  - reflexivity.
  - intros H. discriminate H.
  - reflexivity.
Defined.

Lemma last_direction_wins_witness :
  let vote d db :=
    database (change_votes voter_A 1 (direction_name d) (mkState db db [])).2
  in
  let db2 := vote Downvote (vote Upvote scenario_upvoted) in
  ledger_state db2 "A" 1 = DOWNVOTED
  ∧ ∃ r2,
      resource_table db2 !! 1 = Some r2
      ∧ upvotes r2 + downvotes r2 = 1 + 0 + 0.
Proof.
  exact (last_direction_wins voter_A (mkKey "A") 1 Upvote scenario_upvoted
           (mkResource (VStr "Foo") (VStr "https://foo.example") true VNone
              1 0 0 ["Python"] "Books") eq_refl eq_refl).
Defined.

